(** * Gateway interception addon (scripts/mitmproxy-addon.py)

    A shallow embedding of the addon's hooks and of the module-level
    resolution of the gateway target, followed by the properties of the
    interception decision, of the rewrite and of the response-phase cleanup.

    Modelling conventions.
    - A Python [str] is a [string], a sequence of 8-bit characters; [==],
      [startswith], [endswith] compare character by character, and [lower]
      folds the ASCII letters.
    - The header collection is the engine's ordered multi-map: a list of
      (name, value) fields, a name compared after [lower], a read joining
      the values of all fields of that name.
    - An attribute assignment on the request goes through the engine's
      setter: [scheme] and [headers] are field updates of the [Request.t]
      record, while [host] and [port] also bring an existing Host header
      and a non-empty authority in step with the new host and port.  The
      engine's views [pretty_host] and [pretty_url] are parameters
      ([Engine]).
    - A hook is a computation over the flow it receives and the log it
      writes to, in a state-and-exception monad [M]; a Python exception is
      a [Raise].
    - [urlparse] follows the standard library's algorithm on the scheme and
      the network location; its two validations of a network location are
      parameters ([urllib.Validation]).
    - [INTERCEPT_DOMAINS] is the list already split and stripped. *)

From Stdlib Require Import String Ascii List Bool ZArith NArith Lia DecimalString.
Import ListNotations.
Local Open Scope string_scope.
Local Open Scope Z_scope.

Set Implicit Arguments.

(* ------------------------------------------------------------------ *)
(** ** Python values: exceptions and results *)

Inductive exn : Type :=
| KeyError (key : string)
| ValueError (msg : string)
| AttributeError (msg : string).

Inductive result (A : Type) : Type :=
| Return (a : A)
| Raise (e : exn).

Arguments Return {A} a.
Arguments Raise {A} e.

Definition rbind {A B} (r : result A) (k : A -> result B) : result B :=
  match r with
  | Return a => k a
  | Raise e => Raise e
  end.

Declare Scope result_scope.
Delimit Scope result_scope with result.
Notation "x <-? e ; k" := (rbind e (fun x => k))
  (at level 61, e at next level, right associativity) : result_scope.

(* ------------------------------------------------------------------ *)
(** ** The [str] methods the addon and its libraries use *)

Module Str.

Definition is_upper (c : ascii) : bool :=
  ((65 <=? nat_of_ascii c) && (nat_of_ascii c <=? 90))%nat.

Definition is_lower (c : ascii) : bool :=
  ((97 <=? nat_of_ascii c) && (nat_of_ascii c <=? 122))%nat.

Definition is_digit (c : ascii) : bool :=
  ((48 <=? nat_of_ascii c) && (nat_of_ascii c <=? 57))%nat.

Definition is_ascii (c : ascii) : bool := (nat_of_ascii c <? 128)%nat.

Definition lower_char (c : ascii) : ascii :=
  if is_upper c then ascii_of_nat (nat_of_ascii c + 32) else c.

(** [s.lower()] *)
Fixpoint lower (s : string) : string :=
  match s with
  | EmptyString => EmptyString
  | String c s' => String (lower_char c) (lower s')
  end.

(** [s.startswith(p)] *)
Fixpoint startswith (s p : string) {struct p} : bool :=
  match p, s with
  | EmptyString, _ => true
  | String _ _, EmptyString => false
  | String a p', String b s' => Ascii.eqb a b && startswith s' p'
  end.

(** [s.endswith(suf)]: some tail of [s] is [suf]. *)
Fixpoint endswith (s suf : string) : bool :=
  String.eqb s suf ||
  match s with
  | EmptyString => false
  | String _ s' => endswith s' suf
  end.

(** [c in s] for a one-character [c] *)
Fixpoint contains_char (c : ascii) (s : string) : bool :=
  match s with
  | EmptyString => false
  | String a s' => Ascii.eqb a c || contains_char c s'
  end.

(** [all(p(c) for c in s)] *)
Fixpoint all_chars (p : ascii -> bool) (s : string) : bool :=
  match s with
  | EmptyString => true
  | String a s' => p a && all_chars p s'
  end.

(** [s.replace(c, "")] for a one-character [c] *)
Fixpoint remove_char (c : ascii) (s : string) : string :=
  match s with
  | EmptyString => EmptyString
  | String a s' =>
      if Ascii.eqb a c then remove_char c s' else String a (remove_char c s')
  end.

(** [s.lstrip(chars)], with [chars] given as a predicate *)
Fixpoint lstrip (p : ascii -> bool) (s : string) : string :=
  match s with
  | EmptyString => EmptyString
  | String a s' => if p a then lstrip p s' else s
  end.

(** [s.partition(c)] for a one-character separator: the part before the
    first [c], whether [c] was found, and the part after it. *)
Fixpoint partition (c : ascii) (s : string) : string * bool * string :=
  match s with
  | EmptyString => (EmptyString, false, EmptyString)
  | String a s' =>
      if Ascii.eqb a c then (EmptyString, true, s')
      else let '(before, found, after) := partition c s' in
           (String a before, found, after)
  end.

(** The third component of [s.rpartition(c)]: what follows the last [c],
    or all of [s] when there is none. *)
Fixpoint rpartition_after (c : ascii) (s : string) : string :=
  match s with
  | EmptyString => EmptyString
  | String a s' =>
      if contains_char c s' then rpartition_after c s'
      else if Ascii.eqb a c then s' else s
  end.

(** The part of [s] before the first character satisfying [p], and the
    rest from that character on. *)
Fixpoint break_at (p : ascii -> bool) (s : string) : string * string :=
  match s with
  | EmptyString => (EmptyString, EmptyString)
  | String a s' =>
      if p a then (EmptyString, s)
      else let '(before, rest) := break_at p s' in (String a before, rest)
  end.

(** [int(s)] for a string of ASCII digits *)
Fixpoint int_digits (acc : Z) (s : string) : Z :=
  match s with
  | EmptyString => acc
  | String a s' => int_digits (10 * acc + (Z.of_nat (nat_of_ascii a) - 48)) s'
  end.

(** [str(n)] for an [int] *)
Definition of_int (n : Z) : string := NilZero.string_of_int (Z.to_int n).

End Str.

(* ------------------------------------------------------------------ *)
(** ** Module-level configuration *)

(** The module's globals once the script has been loaded. *)
Class Globals : Type := {
  GATEWAY_TOKEN : string;
  INTERCEPT_DOMAINS : list string;
  INTERCEPT_PATH_PREFIX : string;
  GATEWAY_HOST : string;
  GATEWAY_PORT : Z;
  GATEWAY_SCHEME : string
}.

(** *** [GatewayInterceptor._should_intercept] *)

Section Matcher.
Context {G : Globals}.

(** The test the generator applies to one rule domain. *)
Definition domain_rule (host domain : string) : bool :=
  String.eqb host domain || Str.endswith host ("." ++ domain).

Definition domain_match (host : string) : bool :=
  existsb (domain_rule host) INTERCEPT_DOMAINS.

Definition _should_intercept (host path : string) : bool :=
  match INTERCEPT_DOMAINS with
  | [] => false
  | _ :: _ =>
      if negb (domain_match host) then false
      else if negb (String.eqb INTERCEPT_PATH_PREFIX "")
              && negb (Str.startswith path INTERCEPT_PATH_PREFIX)
      then false
      else true
  end.

End Matcher.

(* ------------------------------------------------------------------ *)
(** ** The engine's header collection

    An ordered tuple of fields; a name may occur several times and names
    are compared case-insensitively ([_kconv]).  Reading a name joins the
    values of all its fields ([_reduce_values]). *)

Module Headers.

Definition t : Type := list (string * string).

Definition _kconv (key : string) : string := Str.lower key.

Definition _reduce_values (values : list string) : string :=
  String.concat ", " values.

Definition same_key (key : string) (field : string * string) : bool :=
  String.eqb (_kconv (fst field)) (_kconv key).

Definition get_all (h : t) (key : string) : list string :=
  map snd (filter (same_key key) h).

(** [h[key]] *)
Definition getitem (h : t) (key : string) : result string :=
  match get_all h key with
  | [] => Raise (KeyError key)
  | values => Return (_reduce_values values)
  end.

(** [h.get(key)], whose default is [None] *)
Definition get (h : t) (key : string) : option string :=
  match getitem h key with
  | Return v => Some v
  | Raise _ => None
  end.

(** [h.get(key, default)] *)
Definition get_default (h : t) (key default : string) : string :=
  match getitem h key with
  | Return v => v
  | Raise _ => default
  end.

(** [key in h] *)
Definition contains (h : t) (key : string) : bool :=
  match getitem h key with
  | Return _ => true
  | Raise _ => false
  end.

(** The loop of [set_all]: fields named [key] take the new values in
    order and are dropped once the values are used up; the values left
    over are returned. *)
Fixpoint set_all_fields (key : string) (fields : t) (values : list string)
  : t * list string :=
  match fields with
  | [] => ([], values)
  | field :: fields' =>
      if same_key key field then
        match values with
        | v :: values' =>
            let '(new_fields, rest) := set_all_fields key fields' values' in
            ((fst field, v) :: new_fields, rest)
        | [] => set_all_fields key fields' []
        end
      else
        let '(new_fields, rest) := set_all_fields key fields' values in
        (field :: new_fields, rest)
  end.

Definition set_all (h : t) (key : string) (values : list string) : t :=
  let '(new_fields, rest) := set_all_fields key h values in
  (new_fields ++ map (fun v => (key, v)) rest)%list.

(** [h[key] = value] *)
Definition setitem (h : t) (key value : string) : t := set_all h key [value].

(** [del h[key]] *)
Definition delitem (h : t) (key : string) : result t :=
  if contains h key
  then Return (filter (fun field => negb (same_key key field)) h)
  else Raise (KeyError key).

End Headers.

(* ------------------------------------------------------------------ *)
(** ** Flows *)

(** The engine's helpers for the host part of a URL. *)
Module Url.
Definition default_port (scheme : string) : option Z :=
  if String.eqb scheme "http" then Some 80
  else if String.eqb scheme "https" then Some 443
  else None.

(** The host, followed by a colon and the port unless the port is the
    scheme's default. *)
Definition hostport (scheme host : string) (port : Z) : string :=
  match default_port scheme with
  | Some p => if p =? port then host else host ++ ":" ++ Str.of_int port
  | None => host ++ ":" ++ Str.of_int port
  end.

Definition unparse (scheme host : string) (port : Z) (path : string) : string :=
  scheme ++ "://" ++ hostport scheme host port ++ path.
End Url.

Module Request.
Record t : Type := {
  scheme : string;
  host : string;
  port : Z;
  path : string;        (* the request target, query string included *)
  method : string;
  content : string;     (* the body *)
  headers : Headers.t;
  authority : string    (* empty unless the client sent one *)
}.

Definition set_scheme (v : string) (r : t) : t :=
  {| scheme := v; host := host r; port := port r; path := path r;
     method := method r; content := content r; headers := headers r;
     authority := authority r |}.

Definition set_headers (v : Headers.t) (r : t) : t :=
  {| scheme := scheme r; host := host r; port := port r; path := path r;
     method := method r; content := content r; headers := v;
     authority := authority r |}.

Definition set_authority (v : string) (r : t) : t :=
  {| scheme := scheme r; host := host r; port := port r; path := path r;
     method := method r; content := content r; headers := headers r;
     authority := v |}.

(** The stored host and port, written without any further step. *)
Definition data_set_host (v : string) (r : t) : t :=
  {| scheme := scheme r; host := v; port := port r; path := path r;
     method := method r; content := content r; headers := headers r;
     authority := authority r |}.

Definition data_set_port (v : Z) (r : t) : t :=
  {| scheme := scheme r; host := host r; port := v; path := path r;
     method := method r; content := content r; headers := headers r;
     authority := authority r |}.

(** What the engine does after a host or port assignment: a Host header
    that is present, and an authority that is not empty, take the value
    [hostport] gives for the request's scheme, host and port. *)
Definition _update_host_and_authority (r : t) : t :=
  let val := Url.hostport (scheme r) (host r) (port r) in
  let r :=
    if Headers.contains (headers r) "Host"
    then set_headers (Headers.setitem (headers r) "Host" val) r
    else r in
  if negb (String.eqb (authority r) "") then set_authority val r else r.

(** [request.host = v] *)
Definition set_host (v : string) (r : t) : t :=
  _update_host_and_authority (data_set_host v r).

(** [request.port = v] *)
Definition set_port (v : Z) (r : t) : t :=
  _update_host_and_authority (data_set_port v r).
End Request.

Module Response.
Record t : Type := { status_code : Z }.
End Response.

Module HTTPFlow.
(** [response] is [None] until the engine has read a response. *)
Record t : Type := {
  request : Request.t;
  response : option Response.t
}.

Definition set_request (v : Request.t) (f : t) : t :=
  {| request := v; response := response f |}.

Definition set_response (v : Response.t) (f : t) : t :=
  {| request := request f; response := Some v |}.
End HTTPFlow.

(** The engine's read-only views of a request, which follow the Host header
    or the authority when the client sent one. *)
Class Engine : Type := {
  pretty_host : Request.t -> string;
  pretty_url : Request.t -> string
}.

(* ------------------------------------------------------------------ *)
(** ** The hook monad: the flow of the call, the log, and exceptions *)

Inductive level : Type := Info | Warn.

Record World : Type := {
  flow : HTTPFlow.t;
  log : list (level * string)
}.

Definition M (A : Type) : Type := World -> result (A * World).

Definition ret {A} (a : A) : M A := fun w => Return (a, w).

Definition bind {A B} (m : M A) (k : A -> M B) : M B :=
  fun w => match m w with
           | Return (a, w') => k a w'
           | Raise e => Raise e
           end.

Definition raise {A} (e : exn) : M A := fun _ => Raise e.

Declare Scope hook_scope.
Delimit Scope hook_scope with hook.
Notation "x <- e ;; k" := (bind e (fun x => k))
  (at level 61, e at next level, right associativity) : hook_scope.
Notation "e ;; k" := (bind e (fun _ => k))
  (at level 61, right associativity) : hook_scope.

Definition get_request : M Request.t :=
  fun w => Return (HTTPFlow.request (flow w), w).

Definition put_request (r : Request.t) : M unit :=
  fun w => Return (tt, {| flow := HTTPFlow.set_request r (flow w); log := log w |}).

Definition modify_request (f : Request.t -> Request.t) : M unit :=
  bind get_request (fun r => put_request (f r)).

Definition get_headers : M Headers.t :=
  bind get_request (fun r => ret (Request.headers r)).

(** [flow.request.headers[key] = value] *)
Definition headers_setitem (key value : string) : M unit :=
  modify_request (fun r => Request.set_headers (Headers.setitem (Request.headers r) key value) r).

(** [del flow.request.headers[key]] *)
Definition headers_delitem (key : string) : M unit :=
  bind get_request (fun r =>
    match Headers.delitem (Request.headers r) key with
    | Return h => put_request (Request.set_headers h r)
    | Raise e => raise e
    end).

(** [flow.response.status_code] *)
Definition response_status_code : M Z :=
  fun w => match HTTPFlow.response (flow w) with
           | Some r => Return (Response.status_code r, w)
           | None => Raise (AttributeError "status_code")
           end.

(** [ctx.log.info(msg)] *)
Definition ctx_log_info (msg : string) : M unit :=
  fun w => Return (tt, {| flow := flow w; log := (log w ++ [(Info, msg)])%list |}).

(** Running a hook on a flow with an empty log. *)
Definition run_hook (hook : M unit) (f : HTTPFlow.t) : result (HTTPFlow.t * list (level * string)) :=
  match hook {| flow := f; log := [] |} with
  | Return (_, w) => Return (flow w, log w)
  | Raise e => Raise e
  end.

(* ------------------------------------------------------------------ *)
(** ** [GatewayInterceptor.request] and [GatewayInterceptor.response] *)

Definition option_eqb (o : option string) (s : string) : bool :=
  match o with
  | Some v => String.eqb v s
  | None => false
  end.

Section Hooks.
Context {G : Globals} {E : Engine}.
Local Open Scope hook_scope.

Definition request : M unit :=
  req <- get_request ;;
  let host := pretty_host req in
  let path := Request.path req in
  if negb (_should_intercept host path) then ret tt
  else
    let original_host := host in
    let original_url := pretty_url req in
    modify_request (Request.set_scheme GATEWAY_SCHEME) ;;
    modify_request (Request.set_host GATEWAY_HOST) ;;
    modify_request (Request.set_port GATEWAY_PORT) ;;
    headers_setitem "Authorization" ("Bearer " ++ GATEWAY_TOKEN) ;;
    headers_setitem "X-Original-Host" original_host ;;
    headers_setitem "X-Intercepted-By" "cyber-drill-gateway" ;;
    ctx_log_info ("[gateway-addon] intercepted: " ++ original_url ++ " -> "
                  ++ GATEWAY_SCHEME ++ "://" ++ GATEWAY_HOST ++ ":"
                  ++ Str.of_int GATEWAY_PORT ++ path).

Definition response : M unit :=
  h <- get_headers ;;
  if option_eqb (Headers.get h "X-Intercepted-By") "cyber-drill-gateway" then
    h <- get_headers ;;
    let original_host := Headers.get_default h "X-Original-Host" "unknown" in
    req <- get_request ;;
    status_code <- response_status_code ;;
    ctx_log_info ("[gateway-addon] response: " ++ original_host ++ Request.path req
                  ++ " -> status=" ++ Str.of_int status_code) ;;
    headers_delitem "X-Intercepted-By" ;;
    h <- get_headers ;;
    if Headers.contains h "X-Original-Host"
    then headers_delitem "X-Original-Host"
    else ret tt
  else ret tt.

(** One transaction: the request hook, the engine attaching the response
    it read, then the response hook on the same flow. *)
Definition transaction (resp : Response.t) : M unit :=
  request ;;
  (fun w => Return (tt, {| flow := HTTPFlow.set_response resp (flow w); log := log w |})) ;;
  response.

End Hooks.

(* ------------------------------------------------------------------ *)
(** ** [urllib.parse.urlparse], as far as the module reads its result

    The addon reads [scheme], [hostname] and [port] of the parse result;
    these depend on the scheme and the network location only, so the
    remaining components (path, params, query, fragment) are not kept.
    The two validations that can reject a network location (of a bracketed
    host, and of a non-ASCII location) are parameters. *)

Module urllib.

Record ParseResult : Type := {
  scheme : string;
  netloc : string
}.

Class Validation : Type := {
  _check_bracketed_netloc : string -> result unit;
  _checknetloc_nfkc : string -> result unit
}.

Definition char (n : nat) : ascii := ascii_of_nat n.

Definition scheme_chars (c : ascii) : bool :=
  Str.is_lower c || Str.is_upper c || Str.is_digit c
  || Str.contains_char c "+-.".

Definition _WHATWG_C0_CONTROL_OR_SPACE (c : ascii) : bool :=
  (nat_of_ascii c <=? 32)%nat.

(** [for b in ['\t', '\r', '\n']: url = url.replace(b, "")] *)
Definition remove_unsafe (url : string) : string :=
  Str.remove_char (char 10) (Str.remove_char (char 13) (Str.remove_char (char 9) url)).

Definition is_delim (c : ascii) : bool := Str.contains_char c "/?#".

(** [_splitnetloc(url, 2)] on a [url] that starts with two slashes *)
Definition _splitnetloc (url : string) : string * string :=
  match url with
  | String _ (String _ url') => Str.break_at is_delim url'
  | _ => (EmptyString, url)
  end.

Definition first_is_ascii_alpha (url : string) : bool :=
  match url with
  | String c _ => Str.is_lower c || Str.is_upper c
  | EmptyString => false
  end.

Definition _checknetloc `{Validation} (netloc : string) : result unit :=
  if String.eqb netloc "" || Str.all_chars Str.is_ascii netloc
  then Return tt
  else _checknetloc_nfkc netloc.

Section Parse.
Context {V : Validation}.
Local Open Scope result_scope.

Definition urlparse (url : string) : result ParseResult :=
  let url := Str.lstrip _WHATWG_C0_CONTROL_OR_SPACE url in
  let url := remove_unsafe url in
  let '(head, found, tail) := Str.partition ":" url in
  let '(scheme, url) :=
    (* i = url.find(':'); i > 0, a letter first, scheme characters up to i *)
    if found && negb (String.eqb head "") && first_is_ascii_alpha url
       && Str.all_chars scheme_chars head
    then (Str.lower head, tail)
    else (EmptyString, url) in
  netloc <-?
    (if Str.startswith url "//" then
       let '(netloc, _) := _splitnetloc url in
       let open_br := Str.contains_char "[" netloc in
       let close_br := Str.contains_char "]" netloc in
       if (open_br && negb close_br) || (close_br && negb open_br)
       then Raise (ValueError "Invalid IPv6 URL")
       else if open_br && close_br
       then _ <-? _check_bracketed_netloc netloc ; Return netloc
       else Return netloc
     else Return EmptyString) ;
  _ <-? _checknetloc netloc ;
  Return {| scheme := scheme; netloc := netloc |}.

End Parse.

Definition _hostinfo (r : ParseResult) : string * option string :=
  let hostinfo := Str.rpartition_after "@" (netloc r) in
  let '(_, have_open_br, bracketed) := Str.partition "[" hostinfo in
  let '(hostname, port) :=
    if have_open_br then
      let '(hostname, _, port) := Str.partition "]" bracketed in
      let '(_, _, port) := Str.partition ":" port in
      (hostname, port)
    else
      let '(hostname, _, port) := Str.partition ":" hostinfo in
      (hostname, port) in
  (hostname, if String.eqb port "" then None else Some port).

Definition hostname (r : ParseResult) : option string :=
  let hostname := fst (_hostinfo r) in
  if String.eqb hostname "" then None
  else
    let '(hostname, percent, zone) := Str.partition "%" hostname in
    Some (Str.lower hostname ++ (if percent then "%" else "") ++ zone).

Definition port (r : ParseResult) : result (option Z) :=
  match snd (_hostinfo r) with
  | None => Return None
  | Some port =>
      if Str.all_chars Str.is_digit port then
        let port := Str.int_digits 0 port in
        if (0 <=? port) && (port <=? 65535) then Return (Some port)
        else Raise (ValueError "Port out of range 0-65535")
      else Raise (ValueError "Port could not be cast to integer value")
  end.

End urllib.

(* ------------------------------------------------------------------ *)
(** ** Module level: resolving the gateway target *)

(** [x or d] on an optional string: [None] and the empty string are falsy. *)
Definition or_str (x : option string) (d : string) : string :=
  match x with
  | Some s => if String.eqb s "" then d else s
  | None => d
  end.

(** [x or d] on an optional integer: [None] and [0] are falsy. *)
Definition or_int (x : option Z) (d : Z) : Z :=
  match x with
  | Some n => if n =? 0 then d else n
  | None => d
  end.

Section ModuleLevel.
Context {V : urllib.Validation}.
Local Open Scope result_scope.

(** The assignments that follow [_parsed = urlparse(GATEWAY_URL)], given
    the other settings read from the environment. *)
Definition load_module (GATEWAY_URL GATEWAY_TOKEN : string)
           (INTERCEPT_DOMAINS : list string) (INTERCEPT_PATH_PREFIX : string)
  : result Globals :=
  _parsed <-? urllib.urlparse GATEWAY_URL ;
  let GATEWAY_HOST := or_str (urllib.hostname _parsed) "127.0.0.1" in
  port <-? urllib.port _parsed ;
  let GATEWAY_PORT :=
    or_int port (if String.eqb (urllib.scheme _parsed) "https" then 443 else 80) in
  let GATEWAY_SCHEME := or_str (Some (urllib.scheme _parsed)) "http" in
  Return {| GATEWAY_TOKEN := GATEWAY_TOKEN;
            INTERCEPT_DOMAINS := INTERCEPT_DOMAINS;
            INTERCEPT_PATH_PREFIX := INTERCEPT_PATH_PREFIX;
            GATEWAY_HOST := GATEWAY_HOST;
            GATEWAY_PORT := GATEWAY_PORT;
            GATEWAY_SCHEME := GATEWAY_SCHEME |}.

End ModuleLevel.

(* ------------------------------------------------------------------ *)
(** ** Concrete settings and flows used in the examples *)

(** The settings of a process started with an empty environment. *)
Definition default_globals : Globals := {|
  GATEWAY_TOKEN := "sk-deploy-001";
  INTERCEPT_DOMAINS := ["api.codeium.com"; "server.codeium.com"; "web-backend.codeium.com"];
  INTERCEPT_PATH_PREFIX := "";
  GATEWAY_HOST := "127.0.0.1";
  GATEWAY_PORT := 18790;
  GATEWAY_SCHEME := "http"
|}.

Definition with_rules (domains : list string) (prefix : string) : Globals := {|
  GATEWAY_TOKEN := "sk-deploy-001";
  INTERCEPT_DOMAINS := domains;
  INTERCEPT_PATH_PREFIX := prefix;
  GATEWAY_HOST := "127.0.0.1";
  GATEWAY_PORT := 18790;
  GATEWAY_SCHEME := "http"
|}.

(** A validation that accepts every network location. *)
Definition lenient : urllib.Validation := {|
  urllib._check_bracketed_netloc := fun _ => Return tt;
  urllib._checknetloc_nfkc := fun _ => Return tt
|}.

(** An engine for HTTP/1 requests whose Host header, when there is one,
    names the request's own host and port: the views then show that host,
    and the URL leaves out the port that is the scheme's default. *)
Definition plain_engine : Engine := {|
  pretty_host := Request.host;
  pretty_url := fun r =>
    Url.unparse (Request.scheme r) (Request.host r) (Request.port r)
                (if String.eqb (Request.path r) "*" then "" else Request.path r)
|}.

Definition sample_request (host : string) (headers : Headers.t) : Request.t := {|
  Request.scheme := "https";
  Request.host := host;
  Request.port := 443;
  Request.path := "/v1/chat/completions?stream=1";
  Request.method := "POST";
  Request.content := "{}";
  Request.headers := headers;
  Request.authority := ""
|}.

Definition sample_flow (host : string) (headers : Headers.t) : HTTPFlow.t := {|
  HTTPFlow.request := sample_request host headers;
  HTTPFlow.response := None
|}.

Definition ok200 : Response.t := {| Response.status_code := 200 |}.


(* ------------------------------------------------------------------ *)
(** ** Closed forms used in the statements below *)

(** The fields whose names the rewrite assigns. *)
Definition rewritten_header (field : string * string) : bool :=
  Headers.same_key "Authorization" field
  || Headers.same_key "X-Original-Host" field
  || Headers.same_key "X-Intercepted-By" field.

(** The fields left once both markers have been deleted. *)
Definition without_markers (h : Headers.t) : Headers.t :=
  filter (fun field => negb (Headers.same_key "X-Original-Host" field))
         (filter (fun field => negb (Headers.same_key "X-Intercepted-By" field)) h).

(** Neither reserved header is present on the request of the flow. *)
Definition no_markers (f : HTTPFlow.t) : Prop :=
  Headers.contains (Request.headers (HTTPFlow.request f)) "X-Intercepted-By" = false
  /\ Headers.contains (Request.headers (HTTPFlow.request f)) "X-Original-Host" = false.

(** The record the response hook writes. *)
Definition response_record (original_host path : string) (status_code : Z) : level * string :=
  (Info, "[gateway-addon] response: " ++ original_host ++ path
         ++ " -> status=" ++ Str.of_int status_code).

(** The fields whose names the rewrite assigns, and the Host field the
    engine keeps in step. *)
Definition rewritten_or_host (field : string * string) : bool :=
  rewritten_header field || Headers.same_key "Host" field.

(** The request once scheme, host and port have been assigned. *)
Definition redirected {G : Globals} (req : Request.t) : Request.t :=
  Request.set_port GATEWAY_PORT
    (Request.set_host GATEWAY_HOST (Request.set_scheme GATEWAY_SCHEME req)).

(** The request a matched flow carries when the request hook returns. *)
Definition rewritten {G : Globals} {E : Engine} (req : Request.t) : Request.t :=
  Request.set_headers
    (Headers.setitem
       (Headers.setitem
          (Headers.setitem (Request.headers (redirected req))
                           "Authorization" ("Bearer " ++ GATEWAY_TOKEN))
          "X-Original-Host" (pretty_host req))
       "X-Intercepted-By" "cyber-drill-gateway")
    (redirected req).

(** The record the request hook writes for a matched flow. *)
Definition request_record {G : Globals} {E : Engine} (req : Request.t) : level * string :=
  (Info, "[gateway-addon] intercepted: " ++ pretty_url req ++ " -> "
         ++ GATEWAY_SCHEME ++ "://" ++ GATEWAY_HOST ++ ":"
         ++ Str.of_int GATEWAY_PORT ++ Request.path req).

(** The flow is matched by the request hook. *)
Definition matched {G : Globals} {E : Engine} (f : HTTPFlow.t) : bool :=
  _should_intercept (pretty_host (HTTPFlow.request f)) (Request.path (HTTPFlow.request f)).

(** Unfolding one layer of a hook applied to a world. *)
Ltac step_hook :=
  cbv beta iota zeta delta
    [request response transaction bind ret raise get_request put_request modify_request
     get_headers headers_setitem headers_delitem response_status_code ctx_log_info
     flow log matched].

(* ------------------------------------------------------------------ *)
(** ** Module level: the settings read from the environment *)

(** [c.isspace()], for the characters a [string] holds. *)
Definition isspace (c : ascii) : bool :=
  let n := nat_of_ascii c in
  (((9 <=? n) && (n <=? 13)) || ((28 <=? n) && (n <=? 32)) || (n =? 133) || (n =? 160))%nat.

(** [s.rstrip(chars)], with [chars] given as a predicate *)
Fixpoint rstrip (p : ascii -> bool) (s : string) : string :=
  match s with
  | EmptyString => EmptyString
  | String a s' =>
      match rstrip p s' with
      | EmptyString => if p a then EmptyString else String a EmptyString
      | String b r => String a (String b r)
      end
  end.

(** [s.strip()] *)
Definition strip (s : string) : string := rstrip isspace (Str.lstrip isspace s).

(** [s.split(c)] for a one-character separator: the pieces between the
    occurrences of [c], empty pieces included. *)
Fixpoint split (c : ascii) (s : string) : list string :=
  match s with
  | EmptyString => [EmptyString]
  | String a s' =>
      if Ascii.eqb a c then EmptyString :: split c s'
      else match split c s' with
           | piece :: pieces => String a piece :: pieces
           | [] => [String a EmptyString]
           end
  end.

(** [os.environ], and [os.environ.get(key, default)] *)
Definition environ : Type := string -> option string.

Definition environ_get (env : environ) (key default : string) : string :=
  match env key with
  | Some v => v
  | None => default
  end.

Definition _DEFAULT_DOMAINS : string :=
  "api.codeium.com,server.codeium.com,web-backend.codeium.com".

(** [[d.strip() for d in setting.split(",") if d.strip()]] *)
Definition parse_domains (setting : string) : list string :=
  map strip (filter (fun d => negb (String.eqb (strip d) "")) (split "," setting)).

(** The module body, from the environment to the globals. *)
Definition import_module {V : urllib.Validation} (env : environ) : result Globals :=
  let GATEWAY_URL := environ_get env "GATEWAY_URL" "http://127.0.0.1:18790" in
  let GATEWAY_TOKEN := environ_get env "GATEWAY_TOKEN" "sk-deploy-001" in
  let INTERCEPT_DOMAINS :=
    parse_domains (environ_get env "INTERCEPT_DOMAINS" _DEFAULT_DOMAINS) in
  let INTERCEPT_PATH_PREFIX := environ_get env "INTERCEPT_PATH_PREFIX" "" in
  load_module GATEWAY_URL GATEWAY_TOKEN INTERCEPT_DOMAINS INTERCEPT_PATH_PREFIX.

(* ------------------------------------------------------------------ *)
(** ** [GatewayInterceptor.load] *)

(** How an f-string renders the list of domains. *)
Class Formatting : Type := {
  format_domains : list string -> string
}.

(** The records [load] writes, in order; the loader it is given is not
    used.  [GATEWAY_URL] is the setting the module was loaded with. *)
Definition load {G : Globals} {F : Formatting} (GATEWAY_URL : string) : list (level * string) :=
  app [(Info, "[gateway-addon] gateway url: " ++ GATEWAY_URL);
       (Info, "[gateway-addon] intercept domains: " ++ format_domains INTERCEPT_DOMAINS);
       (Info, "[gateway-addon] intercept path prefix: " ++ INTERCEPT_PATH_PREFIX)]
      match INTERCEPT_DOMAINS with
      | [] => [(Warn, "[gateway-addon] WARNING: INTERCEPT_DOMAINS is empty! Set env var INTERCEPT_DOMAINS=api.example.com,other.example.com")]
      | _ :: _ => []
      end.

(** A rendering of the domains used in the examples. *)
Definition bracketed : Formatting := {|
  format_domains := fun domains => "[" ++ String.concat ", " domains ++ "]"
|}.

(** An environment given as a list of bindings. *)
Fixpoint environ_of (bindings : list (string * string)) : environ :=
  fun key =>
    match bindings with
    | [] => None
    | (k, v) :: rest => if String.eqb k key then Some v else environ_of rest key
    end.

(** The field is one of the two markers. *)
Definition marker_header (field : string * string) : bool :=
  Headers.same_key "X-Original-Host" field || Headers.same_key "X-Intercepted-By" field.

(** A domain as [parse_domains] keeps it: not empty, no surrounding white
    space, no comma. *)
Definition clean_domain (d : string) : Prop :=
  d <> "" /\ strip d = d /\ Str.contains_char "," d = false.

(** Every character of the setting is a comma or white space. *)
Definition blank_setting (s : string) : bool :=
  Str.all_chars (fun c => Ascii.eqb c "," || isspace c) s.

(* ================================================================== *)
(** * Properties *)

Unset Implicit Arguments.

(** ** Strings *)

Lemma startswith_iff (s p : string) :
  Str.startswith s p = true <-> exists rest, s = p ++ rest.
Proof.
  revert s; induction p as [|a p IH]; intros s; simpl.
  - split; [intros _; exists s; reflexivity | reflexivity].
  - destruct s as [|b s]; simpl.
    + split; [discriminate | intros [rest H]; discriminate].
    + rewrite andb_true_iff, IH, Ascii.eqb_eq. split.
      * intros [-> [rest ->]]. exists rest. reflexivity.
      * intros [rest H]. injection H as -> ->. split; [reflexivity | now exists rest].
Qed.

Lemma endswith_nil (suf : string) :
  Str.endswith "" suf = String.eqb "" suf.
Proof. simpl. apply orb_false_r. Qed.

Lemma endswith_cons (a : ascii) (s suf : string) :
  Str.endswith (String a s) suf = String.eqb (String a s) suf || Str.endswith s suf.
Proof. reflexivity. Qed.

Lemma endswith_iff (s suf : string) :
  Str.endswith s suf = true <-> exists pre, s = pre ++ suf.
Proof.
  induction s as [|a s IH].
  - rewrite endswith_nil, String.eqb_eq. split.
    + intros H. exists "". exact H.
    + intros [pre H]. destruct pre; simpl in H; [exact H | discriminate].
  - rewrite endswith_cons, orb_true_iff, String.eqb_eq, IH. split.
    + intros [H | [pre H]].
      * exists "". exact H.
      * exists (String a pre). simpl. now rewrite H.
    + intros [pre H]. destruct pre as [|b pre]; simpl in H.
      * left. exact H.
      * right. injection H as _ H. now exists pre.
Qed.

Lemma lower_length (s : string) : String.length (Str.lower s) = String.length s.
Proof. induction s; simpl; congruence. Qed.

Lemma append_length (s t : string) :
  String.length (s ++ t) = (String.length s + String.length t)%nat.
Proof. induction s; simpl; congruence. Qed.

(** A host that ends with a dot followed by [d] is strictly longer than [d]. *)
Lemma endswith_dot_longer (h d : string) :
  Str.endswith h ("." ++ d) = true -> (String.length d < String.length h)%nat.
Proof.
  rewrite endswith_iff. intros [pre ->].
  rewrite append_length. simpl. lia.
Qed.

(** ** The interception decision *)

Lemma domain_rule_iff (h d : string) :
  domain_rule h d = true <-> h = d \/ exists pre, h = pre ++ "." ++ d.
Proof.
  unfold domain_rule. now rewrite orb_true_iff, String.eqb_eq, endswith_iff.
Qed.

Lemma should_intercept_unfold {G : Globals} (h p : string) :
  _should_intercept h p =
  domain_match h && (String.eqb INTERCEPT_PATH_PREFIX "" || Str.startswith p INTERCEPT_PATH_PREFIX).
Proof.
  unfold _should_intercept, domain_match.
  destruct INTERCEPT_DOMAINS as [|d ds]; [reflexivity|].
  destruct (existsb (domain_rule h) (d :: ds)); simpl; [|reflexivity].
  destruct (String.eqb INTERCEPT_PATH_PREFIX ""); simpl; [reflexivity|].
  now destruct (Str.startswith p INTERCEPT_PATH_PREFIX).
Qed.

(** C2.  The domain component of [_should_intercept] holds exactly when some
    rule domain [d] is the host itself or the host ends with a dot followed
    by [d]; a match is required for interception; and the host "evild.com"
    does not match the rule "d.com", whatever the path and the prefix. *)
Theorem domain_match_iff_some_rule :
  (forall (G : Globals) (h : string),
      domain_match h = true <->
      exists d, In d INTERCEPT_DOMAINS /\ (h = d \/ exists pre, h = pre ++ "." ++ d))
  /\ (forall (G : Globals) (h p : string),
         _should_intercept h p = true -> domain_match h = true)
  /\ (forall prefix p : string,
         @domain_match (with_rules ["d.com"] prefix) "evild.com" = false
         /\ @_should_intercept (with_rules ["d.com"] prefix) "evild.com" p = false).
Proof.
  split; [|split].
  - intros G h. unfold domain_match. rewrite existsb_exists.
    split; intros [d [Hin Hd]]; exists d; (split; [exact Hin|]); now apply domain_rule_iff.
  - intros G h p. rewrite should_intercept_unfold, andb_true_iff. now intros [H _].
  - intros prefix p. split; [reflexivity|].
    now rewrite should_intercept_unfold.
Qed.

(** C3.  With an empty domain collection [_should_intercept] is false for
    every host and path. *)
Theorem empty_domains_never_intercept {G : Globals} (h p : string) :
  INTERCEPT_DOMAINS = [] -> _should_intercept h p = false.
Proof.
  intros H. unfold _should_intercept. now rewrite H.
Qed.

Lemma empty_domains_never_intercept_witness :
  @_should_intercept (with_rules [] "/v1") "api.codeium.com" "/v1/chat/completions" = false.
Proof.
  apply (@empty_domains_never_intercept (with_rules [] "/v1")). reflexivity.
Defined.

(** C4.  For a host whose domain component matches: with a non-empty prefix
    the decision is true exactly when the path starts with the prefix; with
    an empty prefix it is true for every path.  For every host the decision
    is the conjunction of the domain match and the path match.  The prefix
    comparison distinguishes letter case. *)
Theorem path_prefix_decides {G : Globals} (h p : string) :
  domain_match h = true ->
  (INTERCEPT_PATH_PREFIX <> "" ->
     (_should_intercept h p = true <-> exists rest, p = INTERCEPT_PATH_PREFIX ++ rest))
  /\ (INTERCEPT_PATH_PREFIX = "" -> _should_intercept h p = true)
  /\ (forall h' p' : string,
         _should_intercept h' p' = true <->
         domain_match h' = true
         /\ (INTERCEPT_PATH_PREFIX = "" \/ exists rest, p' = INTERCEPT_PATH_PREFIX ++ rest))
  /\ @_should_intercept (with_rules ["api.codeium.com"] "/v1") "api.codeium.com" "/V1/chat" = false.
Proof.
  intros Hd. split; [|split; [|split]].
  - intros Hne. rewrite should_intercept_unfold, Hd. simpl.
    destruct (String.eqb_spec INTERCEPT_PATH_PREFIX ""); [contradiction|]. simpl.
    apply startswith_iff.
  - intros He. rewrite should_intercept_unfold, Hd, He. reflexivity.
  - intros h' p'.
    rewrite should_intercept_unfold, andb_true_iff, orb_true_iff, String.eqb_eq, startswith_iff.
    reflexivity.
  - reflexivity.
Qed.

Lemma path_prefix_decides_witness :
  (@_should_intercept (with_rules ["api.codeium.com"] "/v1") "api.codeium.com" "/v1/chat" = true
   <-> exists rest, "/v1/chat" = "/v1" ++ rest)
  /\ @_should_intercept default_globals "sub.api.codeium.com" "/anything" = true.
Proof.
  split.
  - refine (proj1 (@path_prefix_decides (with_rules ["api.codeium.com"] "/v1")
                     "api.codeium.com" "/v1/chat" _) _);
      [reflexivity | discriminate].
  - refine (proj1 (proj2 (@path_prefix_decides default_globals
                            "sub.api.codeium.com" "/anything" _)) _);
      reflexivity.
Defined.

(** C10.  Host matching distinguishes letter case: a host that differs from
    a rule domain [d] only in letter case passes neither the equality test
    nor the subdomain test against [d], so a rule set holding [d] alone
    never intercepts it; "API.codeium.com" is not intercepted under the
    default rules. *)
Theorem host_match_case_sensitive (h d : string) :
  Str.lower h = Str.lower d -> h <> d ->
  String.eqb h d = false
  /\ Str.endswith h ("." ++ d) = false
  /\ domain_rule h d = false
  /\ (forall (G : Globals) (p : string),
         INTERCEPT_DOMAINS = [d] -> _should_intercept h p = false)
  /\ (forall p : string,
         @_should_intercept default_globals "API.codeium.com" p = false).
Proof.
  intros Hl Hne.
  assert (He : String.eqb h d = false) by now apply String.eqb_neq.
  assert (Hs : Str.endswith h ("." ++ d) = false).
  { destruct (Str.endswith h ("." ++ d)) eqn:E; [|reflexivity].
    apply endswith_dot_longer in E.
    apply (f_equal String.length) in Hl. rewrite !lower_length in Hl. lia. }
  assert (Hr : domain_rule h d = false) by (unfold domain_rule; now rewrite He, Hs).
  split; [exact He | split; [exact Hs | split; [exact Hr | split]]].
  - intros G p HG. rewrite should_intercept_unfold. unfold domain_match.
    rewrite HG. simpl. now rewrite Hr.
  - intros p. now rewrite should_intercept_unfold.
Qed.

Lemma host_match_case_sensitive_witness :
  domain_rule "API.codeium.com" "api.codeium.com" = false.
Proof.
  apply (@host_match_case_sensitive "API.codeium.com" "api.codeium.com");
    [reflexivity | discriminate].
Defined.

(** ** The header collection *)

Lemma same_key_refl (key value : string) : Headers.same_key key (key, value) = true.
Proof. unfold Headers.same_key. apply String.eqb_refl. Qed.

Lemma same_key_other (k k' : string) (field : string * string) :
  Headers._kconv k <> Headers._kconv k' ->
  Headers.same_key k' field = true -> Headers.same_key k field = false.
Proof.
  unfold Headers.same_key. intros Hne H. apply String.eqb_eq in H.
  apply String.eqb_neq. congruence.
Qed.

Lemma filter_filter_sub {A} (Q R : A -> bool) (l : list A) :
  (forall x, Q x = true -> R x = true) ->
  filter Q (filter R l) = filter Q l.
Proof.
  intros H. induction l as [|x l IH]; simpl; [reflexivity|].
  destruct (R x) eqn:ER; simpl.
  - now rewrite IH.
  - destruct (Q x) eqn:EQ; [|exact IH]. apply H in EQ. congruence.
Qed.

Lemma filter_filter_none {A} (Q R : A -> bool) (l : list A) :
  (forall x, Q x = true -> R x = false) ->
  filter Q (filter R l) = [].
Proof.
  intros H. induction l as [|x l IH]; simpl; [reflexivity|].
  destruct (R x) eqn:ER; simpl; [|exact IH].
  destruct (Q x) eqn:EQ; [|exact IH]. apply H in EQ. congruence.
Qed.

Lemma filter_all {A} (Q : A -> bool) (l : list A) :
  filter (fun x => negb (Q x)) l = l <-> filter Q l = [].
Proof.
  induction l as [|x l IH]; simpl; [tauto|].
  destruct (Q x) eqn:EQ; simpl.
  - split; [|discriminate]. intros H.
    assert (Hl := filter_length_le (fun x => negb (Q x)) l).
    rewrite H in Hl. simpl in Hl. lia.
  - rewrite <- IH. split; [now intros [= ->] | now intros ->].
Qed.

Lemma contains_false_iff (h : Headers.t) (key : string) :
  Headers.contains h key = false <-> Headers.get_all h key = [].
Proof.
  unfold Headers.contains, Headers.getitem.
  destruct (Headers.get_all h key); split; congruence.
Qed.

Lemma get_none_iff (h : Headers.t) (key : string) :
  Headers.get h key = None <-> Headers.get_all h key = [].
Proof.
  unfold Headers.get, Headers.getitem.
  destruct (Headers.get_all h key); split; congruence.
Qed.

Lemma get_some_contains (h : Headers.t) (key v : string) :
  Headers.get h key = Some v -> Headers.contains h key = true.
Proof.
  unfold Headers.get, Headers.contains.
  destruct (Headers.getitem h key); [reflexivity | discriminate].
Qed.

(** [set_all] leaves the fields of other names as they were, in order. *)
Lemma set_all_fields_frame (P : string * string -> bool) (key : string) :
  (forall field, Headers.same_key key field = true -> P field = true) ->
  forall h values,
    filter (fun field => negb (P field)) (fst (Headers.set_all_fields key h values))
    = filter (fun field => negb (P field)) h.
Proof.
  intros HP. induction h as [|field h IH]; intros values; [reflexivity|].
  cbn [Headers.set_all_fields].
  destruct (Headers.same_key key field) eqn:Ek.
  - destruct values as [|v values].
    + rewrite IH. cbn [filter]. now rewrite (HP _ Ek).
    + specialize (IH values).
      destruct (Headers.set_all_fields key h values) as [nf rest].
      cbn [fst filter] in *. rewrite (HP _ Ek).
      assert (Hp : P (fst field, v) = true) by (apply HP; exact Ek).
      rewrite Hp. exact IH.
  - specialize (IH values).
    destruct (Headers.set_all_fields key h values) as [nf rest].
    cbn [fst filter] in *. now rewrite IH.
Qed.

Lemma set_all_frame (P : string * string -> bool) (key : string) (h : Headers.t) (values : list string) :
  (forall field, Headers.same_key key field = true -> P field = true) ->
  filter (fun field => negb (P field)) (Headers.set_all h key values)
  = filter (fun field => negb (P field)) h.
Proof.
  intros HP. unfold Headers.set_all.
  assert (H := set_all_fields_frame P key HP h values).
  destruct (Headers.set_all_fields key h values) as [nf rest]. simpl in H.
  rewrite filter_app, H.
  replace (filter (fun field => negb (P field)) (map (fun v => (key, v)) rest)) with (@nil (string * string)).
  - apply app_nil_r.
  - induction rest as [|v rest IH]; simpl; [reflexivity|].
    now rewrite (HP (key, v) (same_key_refl key v)).
Qed.

(** The fields named [key] carry the new values after [set_all]. *)
Lemma set_all_fields_values (key : string) (h : Headers.t) (values : list string) :
  (map snd (filter (Headers.same_key key) (fst (Headers.set_all_fields key h values)))
   ++ snd (Headers.set_all_fields key h values))%list = values.
Proof.
  revert values. induction h as [|field h IH]; intros values; [reflexivity|].
  cbn [Headers.set_all_fields].
  destruct (Headers.same_key key field) eqn:Ek.
  - destruct values as [|v values].
    + apply IH.
    + specialize (IH values).
      destruct (Headers.set_all_fields key h values) as [nf rest].
      cbn [fst snd filter] in *.
      assert (Hp : Headers.same_key key (fst field, v) = true) by exact Ek.
      rewrite Hp. cbn [map snd app]. now rewrite IH.
  - specialize (IH values).
    destruct (Headers.set_all_fields key h values) as [nf rest].
    cbn [fst snd filter] in *. now rewrite Ek.
Qed.

Lemma get_all_set_all (key : string) (h : Headers.t) (values : list string) :
  Headers.get_all (Headers.set_all h key values) key = values.
Proof.
  unfold Headers.get_all, Headers.set_all.
  assert (H := set_all_fields_values key h values).
  destruct (Headers.set_all_fields key h values) as [nf rest]. simpl in H.
  rewrite filter_app, map_app.
  replace (map snd (filter (Headers.same_key key) (map (fun v => (key, v)) rest))) with rest;
    [exact H|].
  clear H. induction rest as [|v rest IH]; simpl; [reflexivity|].
  rewrite same_key_refl. simpl. f_equal. exact IH.
Qed.

Lemma get_all_setitem_same (key value : string) (h : Headers.t) :
  Headers.get_all (Headers.setitem h key value) key = [value].
Proof. apply get_all_set_all. Qed.

Lemma get_all_setitem_other (k k' value : string) (h : Headers.t) :
  Headers._kconv k <> Headers._kconv k' ->
  Headers.get_all (Headers.setitem h k value) k' = Headers.get_all h k'.
Proof.
  intros Hne. unfold Headers.get_all, Headers.setitem.
  rewrite <- (filter_filter_sub (Headers.same_key k') (fun f => negb (Headers.same_key k f)))
    by (intros f Hf; now rewrite (same_key_other k k' f Hne Hf)).
  rewrite (set_all_frame (Headers.same_key k) k) by auto.
  now rewrite filter_filter_sub
    by (intros f Hf; now rewrite (same_key_other k k' f Hne Hf)).
Qed.

Lemma get_all_deleted (key : string) (h : Headers.t) :
  Headers.get_all (filter (fun field => negb (Headers.same_key key field)) h) key = [].
Proof.
  unfold Headers.get_all. rewrite filter_filter_none; [reflexivity|].
  intros f Hf. now rewrite Hf.
Qed.

Lemma get_all_deleted_other (k k' : string) (h : Headers.t) :
  Headers._kconv k <> Headers._kconv k' ->
  Headers.get_all (filter (fun field => negb (Headers.same_key k field)) h) k'
  = Headers.get_all h k'.
Proof.
  intros Hne. unfold Headers.get_all.
  now rewrite filter_filter_sub
    by (intros f Hf; now rewrite (same_key_other k k' f Hne Hf)).
Qed.

Lemma delitem_present (key : string) (h : Headers.t) :
  Headers.contains h key = true ->
  Headers.delitem h key = Return (filter (fun field => negb (Headers.same_key key field)) h).
Proof. unfold Headers.delitem. now intros ->. Qed.

Lemma delete_absent (key : string) (h : Headers.t) :
  Headers.contains h key = false ->
  filter (fun field => negb (Headers.same_key key field)) h = h.
Proof.
  rewrite contains_false_iff. unfold Headers.get_all. intros H.
  apply filter_all. destruct (filter (Headers.same_key key) h); [reflexivity | discriminate].
Qed.

Lemma without_markers_clean (h : Headers.t) :
  Headers.contains (without_markers h) "X-Intercepted-By" = false
  /\ Headers.contains (without_markers h) "X-Original-Host" = false.
Proof.
  unfold without_markers. split; apply contains_false_iff.
  - rewrite get_all_deleted_other by (vm_compute; discriminate). apply get_all_deleted.
  - apply get_all_deleted.
Qed.

(** ** The hooks, step by step *)

Lemma request_passes {G : Globals} {E : Engine} (f : HTTPFlow.t) (l : list (level * string)) :
  matched f = false ->
  request {| flow := f; log := l |} = Return (tt, {| flow := f; log := l |}).
Proof. step_hook. intros ->. reflexivity. Qed.

Lemma request_rewrites {G : Globals} {E : Engine} (f : HTTPFlow.t) (l : list (level * string)) :
  matched f = true ->
  request {| flow := f; log := l |}
  = Return (tt, {| flow := HTTPFlow.set_request (rewritten (HTTPFlow.request f)) f;
                   log := (l ++ [request_record (HTTPFlow.request f)])%list |}).
Proof. step_hook. intros ->. destruct f; reflexivity. Qed.

Lemma response_skips (f : HTTPFlow.t) (l : list (level * string)) :
  option_eqb (Headers.get (Request.headers (HTTPFlow.request f)) "X-Intercepted-By")
             "cyber-drill-gateway" = false ->
  response {| flow := f; log := l |} = Return (tt, {| flow := f; log := l |}).
Proof. step_hook. intros ->. reflexivity. Qed.

Lemma response_needs_a_response (f : HTTPFlow.t) (l : list (level * string)) :
  Headers.get (Request.headers (HTTPFlow.request f)) "X-Intercepted-By"
  = Some "cyber-drill-gateway" ->
  HTTPFlow.response f = None ->
  response {| flow := f; log := l |} = Raise (AttributeError "status_code").
Proof.
  intros Hm Hr. step_hook. rewrite Hm. cbn [option_eqb]. rewrite String.eqb_refl.
  step_hook. rewrite Hr. reflexivity.
Qed.

Lemma response_cleans (f : HTTPFlow.t) (resp : Response.t) (l : list (level * string)) :
  Headers.get (Request.headers (HTTPFlow.request f)) "X-Intercepted-By"
  = Some "cyber-drill-gateway" ->
  HTTPFlow.response f = Some resp ->
  response {| flow := f; log := l |}
  = Return (tt,
      {| flow := HTTPFlow.set_request
                   (Request.set_headers
                      (without_markers (Request.headers (HTTPFlow.request f)))
                      (HTTPFlow.request f)) f;
         log := (l ++ [response_record
                         (Headers.get_default (Request.headers (HTTPFlow.request f))
                                              "X-Original-Host" "unknown")
                         (Request.path (HTTPFlow.request f))
                         (Response.status_code resp)])%list |}).
Proof.
  intros Hm Hr.
  assert (Hc := get_some_contains _ _ _ Hm).
  step_hook. rewrite Hm. cbn [option_eqb]. rewrite String.eqb_refl.
  step_hook. rewrite Hr. step_hook.
  rewrite (delitem_present _ _ Hc). step_hook.
  cbn [HTTPFlow.request HTTPFlow.set_request Request.headers Request.set_headers].
  unfold without_markers.
  set (h1 := filter (fun field => negb (Headers.same_key "X-Intercepted-By" field))
                    (Request.headers (HTTPFlow.request f))).
  destruct (Headers.contains h1 "X-Original-Host") eqn:Eo; step_hook;
    cbn [HTTPFlow.request HTTPFlow.set_request Request.headers Request.set_headers].
  - rewrite (delitem_present _ _ Eo). destruct f as [[] ?]; reflexivity.
  - rewrite (delete_absent _ _ Eo). destruct f as [[] ?]; reflexivity.
Qed.

Lemma get_setitem_same (key value : string) (h : Headers.t) :
  Headers.get (Headers.setitem h key value) key = Some value.
Proof.
  unfold Headers.get, Headers.getitem. now rewrite get_all_setitem_same.
Qed.

Lemma rewritten_is_marked {G : Globals} {E : Engine} (req : Request.t) :
  Headers.get (Request.headers (rewritten req)) "X-Intercepted-By"
  = Some "cyber-drill-gateway".
Proof. apply get_setitem_same. Qed.

Lemma rewritten_header_frame (key value : string) (h : Headers.t) :
  rewritten_header (key, value) = true ->
  filter (fun field => negb (rewritten_header field)) (Headers.setitem h key value)
  = filter (fun field => negb (rewritten_header field)) h.
Proof.
  intros Hk. apply set_all_frame. intros field Hf.
  unfold rewritten_header, Headers.same_key in *. simpl fst in *.
  apply String.eqb_eq in Hf. now rewrite Hf.
Qed.

Lemma run_response_skips (f : HTTPFlow.t) :
  option_eqb (Headers.get (Request.headers (HTTPFlow.request f)) "X-Intercepted-By")
             "cyber-drill-gateway" = false ->
  run_hook response f = Return (f, []).
Proof. intros H. unfold run_hook. now rewrite response_skips. Qed.

Lemma run_response_cleans (f : HTTPFlow.t) (resp : Response.t) :
  Headers.get (Request.headers (HTTPFlow.request f)) "X-Intercepted-By"
  = Some "cyber-drill-gateway" ->
  HTTPFlow.response f = Some resp ->
  run_hook response f
  = Return (HTTPFlow.set_request
              (Request.set_headers
                 (without_markers (Request.headers (HTTPFlow.request f)))
                 (HTTPFlow.request f)) f,
            [response_record
               (Headers.get_default (Request.headers (HTTPFlow.request f))
                                    "X-Original-Host" "unknown")
               (Request.path (HTTPFlow.request f))
               (Response.status_code resp)]).
Proof. intros Hm Hr. unfold run_hook. now rewrite (response_cleans f resp [] Hm Hr). Qed.

Lemma cleaned_has_no_markers (h : Headers.t) (f : HTTPFlow.t) :
  no_markers (HTTPFlow.set_request
                (Request.set_headers (without_markers h) (HTTPFlow.request f)) f).
Proof. unfold no_markers. simpl. apply without_markers_clean. Qed.

(** ** The rewrite *)

Lemma update_keeps (r : Request.t) :
  Request.scheme (Request._update_host_and_authority r) = Request.scheme r
  /\ Request.host (Request._update_host_and_authority r) = Request.host r
  /\ Request.port (Request._update_host_and_authority r) = Request.port r
  /\ Request.path (Request._update_host_and_authority r) = Request.path r
  /\ Request.method (Request._update_host_and_authority r) = Request.method r
  /\ Request.content (Request._update_host_and_authority r) = Request.content r.
Proof.
  unfold Request._update_host_and_authority.
  destruct (Headers.contains (Request.headers r) "Host");
    cbn [Request.authority Request.set_headers];
    destruct (String.eqb (Request.authority r) ""); repeat split.
Qed.

Lemma update_headers (r : Request.t) :
  Request.headers (Request._update_host_and_authority r)
  = if Headers.contains (Request.headers r) "Host"
    then Headers.setitem (Request.headers r) "Host"
           (Url.hostport (Request.scheme r) (Request.host r) (Request.port r))
    else Request.headers r.
Proof.
  unfold Request._update_host_and_authority.
  destruct (Headers.contains (Request.headers r) "Host");
    cbn [Request.authority Request.set_headers];
    destruct (String.eqb (Request.authority r) ""); reflexivity.
Qed.

Lemma update_authority (r : Request.t) :
  Request.authority (Request._update_host_and_authority r)
  = if String.eqb (Request.authority r) "" then ""
    else Url.hostport (Request.scheme r) (Request.host r) (Request.port r).
Proof.
  unfold Request._update_host_and_authority.
  destruct (Headers.contains (Request.headers r) "Host");
    cbn [Request.authority Request.set_headers];
    destruct (String.eqb_spec (Request.authority r) "") as [H | H];
    cbn [negb Request.authority Request.set_authority Request.set_headers]; congruence.
Qed.

Lemma contains_setitem (key value : string) (h : Headers.t) :
  Headers.contains (Headers.setitem h key value) key = true.
Proof.
  unfold Headers.contains, Headers.getitem. now rewrite get_all_setitem_same.
Qed.

Lemma hostport_not_empty (scheme host : string) (port : Z) :
  host <> "" -> Url.hostport scheme host port <> "".
Proof.
  intros H. unfold Url.hostport.
  destruct host as [|c host]; [contradiction|].
  destruct (Url.default_port scheme) as [p|]; [destruct (p =? port)|]; discriminate.
Qed.

Lemma redirected_fields {G : Globals} (req : Request.t) :
  Request.scheme (redirected req) = GATEWAY_SCHEME
  /\ Request.host (redirected req) = GATEWAY_HOST
  /\ Request.port (redirected req) = GATEWAY_PORT
  /\ Request.path (redirected req) = Request.path req
  /\ Request.method (redirected req) = Request.method req
  /\ Request.content (redirected req) = Request.content req.
Proof.
  unfold redirected, Request.set_port, Request.set_host.
  destruct (update_keeps
              (Request.data_set_port GATEWAY_PORT
                 (Request._update_host_and_authority
                    (Request.data_set_host GATEWAY_HOST
                       (Request.set_scheme GATEWAY_SCHEME req)))))
    as [-> [-> [-> [-> [-> ->]]]]].
  cbn [Request.data_set_port Request.scheme Request.host Request.port Request.path
       Request.method Request.content].
  destruct (update_keeps
              (Request.data_set_host GATEWAY_HOST (Request.set_scheme GATEWAY_SCHEME req)))
    as [-> [-> [_ [-> [-> ->]]]]].
  repeat split.
Qed.

Lemma redirected_headers {G : Globals} (req : Request.t) :
  Request.headers (redirected req)
  = if Headers.contains (Request.headers req) "Host"
    then Headers.setitem
           (Headers.setitem (Request.headers req) "Host"
              (Url.hostport GATEWAY_SCHEME GATEWAY_HOST (Request.port req)))
           "Host" (Url.hostport GATEWAY_SCHEME GATEWAY_HOST GATEWAY_PORT)
    else Request.headers req.
Proof.
  unfold redirected, Request.set_port, Request.set_host.
  rewrite update_headers.
  destruct (update_keeps
              (Request.data_set_host GATEWAY_HOST (Request.set_scheme GATEWAY_SCHEME req)))
    as [Hs [Hh _]].
  cbn [Request.data_set_port Request.scheme Request.host Request.port Request.headers].
  rewrite Hs, Hh, update_headers.
  cbn [Request.data_set_host Request.set_scheme Request.scheme Request.host Request.port
       Request.headers].
  destruct (Headers.contains (Request.headers req) "Host") eqn:Ec.
  - now rewrite contains_setitem.
  - now rewrite Ec.
Qed.

Lemma redirected_authority {G : Globals} (req : Request.t) :
  (Request.authority req = "" -> Request.authority (redirected req) = "")
  /\ (Request.authority req <> "" -> GATEWAY_HOST <> "" ->
      Request.authority (redirected req)
      = Url.hostport GATEWAY_SCHEME GATEWAY_HOST GATEWAY_PORT).
Proof.
  unfold redirected, Request.set_port, Request.set_host.
  rewrite update_authority.
  destruct (update_keeps
              (Request.data_set_host GATEWAY_HOST (Request.set_scheme GATEWAY_SCHEME req)))
    as [Hs [Hh _]].
  cbn [Request.data_set_port Request.scheme Request.host Request.port Request.authority].
  rewrite Hs, Hh, update_authority.
  cbn [Request.data_set_host Request.set_scheme Request.scheme Request.host Request.port
       Request.authority].
  split.
  - intros ->. reflexivity.
  - intros Ha Hg. destruct (String.eqb_spec (Request.authority req) ""); [contradiction|].
    destruct (String.eqb_spec
                (Url.hostport GATEWAY_SCHEME GATEWAY_HOST (Request.port req)) "") as [E | E];
      [|reflexivity].
    now elim (hostport_not_empty GATEWAY_SCHEME GATEWAY_HOST (Request.port req) Hg).
Qed.

Lemma rewritten_or_host_frame (key value : string) (h : Headers.t) :
  rewritten_or_host (key, value) = true ->
  filter (fun field => negb (rewritten_or_host field)) (Headers.setitem h key value)
  = filter (fun field => negb (rewritten_or_host field)) h.
Proof.
  intros Hk. apply set_all_frame. intros field Hf.
  unfold rewritten_or_host, rewritten_header, Headers.same_key in *. simpl fst in *.
  apply String.eqb_eq in Hf. now rewrite Hf.
Qed.

(** C5, as the code has it.  On a matched flow the request hook returns, and
    what it changes is the scheme, host and port (now the gateway's), the
    Authorization field, the two marker fields (the original-host marker
    holds the host seen before the rewrite, the intercepted marker the fixed
    tag) and, through the engine's host and port assignment, a Host field
    that the request carries and an authority that is not empty, which both
    become the gateway's host and port.  The path (query string included),
    the method, the body, the fields of every other name, in their order,
    and the response slot are as before; a request without a Host field
    gets none, and an empty authority stays empty. *)
Theorem rewrite_frame {G : Globals} {E : Engine} (f : HTTPFlow.t) :
  matched f = true ->
  exists f',
    run_hook request f = Return (f', [request_record (HTTPFlow.request f)])
    /\ Request.path (HTTPFlow.request f') = Request.path (HTTPFlow.request f)
    /\ Request.method (HTTPFlow.request f') = Request.method (HTTPFlow.request f)
    /\ Request.content (HTTPFlow.request f') = Request.content (HTTPFlow.request f)
    /\ filter (fun field => negb (rewritten_or_host field))
              (Request.headers (HTTPFlow.request f'))
       = filter (fun field => negb (rewritten_or_host field))
                (Request.headers (HTTPFlow.request f))
    /\ HTTPFlow.response f' = HTTPFlow.response f
    /\ Request.scheme (HTTPFlow.request f') = GATEWAY_SCHEME
    /\ Request.host (HTTPFlow.request f') = GATEWAY_HOST
    /\ Request.port (HTTPFlow.request f') = GATEWAY_PORT
    /\ Headers.get_all (Request.headers (HTTPFlow.request f')) "X-Original-Host"
       = [pretty_host (HTTPFlow.request f)]
    /\ Headers.get_all (Request.headers (HTTPFlow.request f')) "X-Intercepted-By"
       = ["cyber-drill-gateway"]
    /\ (Headers.contains (Request.headers (HTTPFlow.request f)) "Host" = false ->
        Headers.contains (Request.headers (HTTPFlow.request f')) "Host" = false
        /\ filter (fun field => negb (rewritten_header field))
                  (Request.headers (HTTPFlow.request f'))
           = filter (fun field => negb (rewritten_header field))
                    (Request.headers (HTTPFlow.request f)))
    /\ (Headers.contains (Request.headers (HTTPFlow.request f)) "Host" = true ->
        Headers.get_all (Request.headers (HTTPFlow.request f')) "Host"
        = [Url.hostport GATEWAY_SCHEME GATEWAY_HOST GATEWAY_PORT])
    /\ (Request.authority (HTTPFlow.request f) = "" ->
        Request.authority (HTTPFlow.request f') = "")
    /\ (Request.authority (HTTPFlow.request f) <> "" -> GATEWAY_HOST <> "" ->
        Request.authority (HTTPFlow.request f')
        = Url.hostport GATEWAY_SCHEME GATEWAY_HOST GATEWAY_PORT).
Proof.
  intros Hm.
  exists (HTTPFlow.set_request (rewritten (HTTPFlow.request f)) f).
  split.
  { unfold run_hook. now rewrite (request_rewrites f [] Hm). }
  destruct (redirected_fields (HTTPFlow.request f)) as [Hs [Hh [Hp [Hpath [Hmeth Hcont]]]]].
  assert (Hhd := redirected_headers (HTTPFlow.request f)).
  destruct (redirected_authority (HTTPFlow.request f)) as [Ha0 Ha1].
  cbn [HTTPFlow.request HTTPFlow.set_request HTTPFlow.response rewritten
       Request.set_headers Request.path Request.method Request.content Request.headers
       Request.scheme Request.host Request.port Request.authority].
  split; [exact Hpath|]. split; [exact Hmeth|]. split; [exact Hcont|].
  split.
  { rewrite !rewritten_or_host_frame by reflexivity. rewrite Hhd.
    destruct (Headers.contains (Request.headers (HTTPFlow.request f)) "Host");
      [|reflexivity].
    now rewrite !rewritten_or_host_frame by reflexivity. }
  split; [reflexivity|]. split; [exact Hs|]. split; [exact Hh|]. split; [exact Hp|].
  split.
  { rewrite get_all_setitem_other by (vm_compute; discriminate).
    apply get_all_setitem_same. }
  split; [apply get_all_setitem_same|].
  split; [|split; [|split; [exact Ha0 | exact Ha1]]].
  - intros Hc. rewrite Hhd, Hc. split.
    + apply contains_false_iff.
      rewrite !get_all_setitem_other by (vm_compute; discriminate).
      now apply contains_false_iff.
    + now rewrite !rewritten_header_frame by reflexivity.
  - intros Hc. rewrite Hhd, Hc.
    rewrite !get_all_setitem_other by (vm_compute; discriminate).
    apply get_all_setitem_same.
Qed.

Lemma rewrite_frame_witness :
  exists f',
    run_hook (@request default_globals plain_engine)
             (sample_flow "api.codeium.com" [("Accept", "*/*"); ("authorization", "Bearer client")])
    = Return (f', [(Info, "[gateway-addon] intercepted: https://api.codeium.com/v1/chat/completions?stream=1 -> http://127.0.0.1:18790/v1/chat/completions?stream=1")])
    /\ Request.path (HTTPFlow.request f') = "/v1/chat/completions?stream=1"
    /\ Request.method (HTTPFlow.request f') = "POST"
    /\ Request.content (HTTPFlow.request f') = "{}"
    /\ Request.headers (HTTPFlow.request f')
       = [("Accept", "*/*"); ("authorization", "Bearer sk-deploy-001");
          ("X-Original-Host", "api.codeium.com"); ("X-Intercepted-By", "cyber-drill-gateway")].
Proof.
  destruct (@rewrite_frame default_globals plain_engine
              (sample_flow "api.codeium.com" [("Accept", "*/*"); ("authorization", "Bearer client")])
              eq_refl) as [f' [Hrun _]].
  exists f'. split; [exact Hrun|].
  vm_compute in Hrun. injection Hrun as <-. repeat split.
Defined.

(** C5 as stated fails: a matched request that carries a Host field leaves
    the request hook with that field changed to the gateway's host and
    port, although it is neither the Authorization field nor a marker. *)
Lemma host_header_follows_the_rewrite :
  run_hook (@request default_globals plain_engine)
           (sample_flow "api.codeium.com" [("Host", "api.codeium.com"); ("Accept", "*/*")])
  = Return
      ({| HTTPFlow.request :=
            {| Request.scheme := "http";
               Request.host := "127.0.0.1";
               Request.port := 18790;
               Request.path := "/v1/chat/completions?stream=1";
               Request.method := "POST";
               Request.content := "{}";
               Request.headers :=
                 [("Host", "127.0.0.1:18790"); ("Accept", "*/*");
                  ("Authorization", "Bearer sk-deploy-001");
                  ("X-Original-Host", "api.codeium.com");
                  ("X-Intercepted-By", "cyber-drill-gateway")];
               Request.authority := "" |};
          HTTPFlow.response := None |},
       [(Info, "[gateway-addon] intercepted: https://api.codeium.com/v1/chat/completions?stream=1 -> http://127.0.0.1:18790/v1/chat/completions?stream=1")])
  /\ rewritten_header ("Host", "api.codeium.com") = false
  /\ Headers.get_all [("Host", "api.codeium.com"); ("Accept", "*/*")] "Host"
     = ["api.codeium.com"]
  /\ Headers.get_all
       [("Host", "127.0.0.1:18790"); ("Accept", "*/*");
        ("Authorization", "Bearer sk-deploy-001");
        ("X-Original-Host", "api.codeium.com");
        ("X-Intercepted-By", "cyber-drill-gateway")] "Host"
     = ["127.0.0.1:18790"].
Proof. repeat split. Qed.

(** C6.  On a matched flow, after the rewrite the Authorization header has a
    single value, the word Bearer, a space and the gateway token, whatever
    Authorization fields the client sent. *)
Theorem authorization_replaced {G : Globals} {E : Engine} (f : HTTPFlow.t) :
  matched f = true ->
  exists f' records,
    run_hook request f = Return (f', records)
    /\ Headers.get_all (Request.headers (HTTPFlow.request f')) "Authorization"
       = ["Bearer " ++ GATEWAY_TOKEN]
    /\ Headers.get (Request.headers (HTTPFlow.request f')) "Authorization"
       = Some ("Bearer " ++ GATEWAY_TOKEN).
Proof.
  intros Hm.
  exists (HTTPFlow.set_request (rewritten (HTTPFlow.request f)) f),
         [request_record (HTTPFlow.request f)].
  split.
  { unfold run_hook. now rewrite (request_rewrites f [] Hm). }
  assert (Ha : Headers.get_all
                 (Request.headers
                    (HTTPFlow.request
                       (HTTPFlow.set_request (rewritten (HTTPFlow.request f)) f)))
                 "Authorization" = ["Bearer " ++ GATEWAY_TOKEN]).
  { cbn [HTTPFlow.request HTTPFlow.set_request rewritten Request.headers
         Request.set_headers].
    rewrite !get_all_setitem_other by (vm_compute; discriminate).
    apply get_all_setitem_same. }
  split; [exact Ha|].
  unfold Headers.get, Headers.getitem. rewrite Ha. reflexivity.
Qed.

Lemma authorization_replaced_witness :
  exists f' records,
    run_hook (@request default_globals plain_engine)
             (sample_flow "server.codeium.com"
                [("AUTHORIZATION", "Bearer one"); ("Accept", "*/*"); ("authorization", "Basic two")])
    = Return (f', records)
    /\ Headers.get_all (Request.headers (HTTPFlow.request f')) "Authorization"
       = ["Bearer sk-deploy-001"]
    /\ Headers.get (Request.headers (HTTPFlow.request f')) "Authorization"
       = Some "Bearer sk-deploy-001".
Proof.
  exact (@authorization_replaced default_globals plain_engine
           (sample_flow "server.codeium.com"
              [("AUTHORIZATION", "Bearer one"); ("Accept", "*/*"); ("authorization", "Basic two")])
           eq_refl).
Defined.

(** ** The response-phase cleanup *)

(** C7, as the code has it.  The response hook raises nothing on a flow that
    has a response.  On a flow without the intercepted marker it returns
    the flow as it was and writes no record; the same holds of a flow whose
    intercepted marker has a value other than the tag.  On a flow whose
    intercepted marker holds the tag while the original-host marker is
    absent, it writes the record with the word unknown in the place of the
    original host and returns the flow without either marker. *)
Theorem response_never_raises (f : HTTPFlow.t) (resp : Response.t) :
  HTTPFlow.response f = Some resp ->
  (exists f' records, run_hook response f = Return (f', records))
  /\ (Headers.contains (Request.headers (HTTPFlow.request f)) "X-Intercepted-By" = false ->
      run_hook response f = Return (f, []))
  /\ (forall v : string,
         Headers.get (Request.headers (HTTPFlow.request f)) "X-Intercepted-By" = Some v ->
         v <> "cyber-drill-gateway" ->
         run_hook response f = Return (f, []))
  /\ (Headers.get (Request.headers (HTTPFlow.request f)) "X-Intercepted-By"
      = Some "cyber-drill-gateway" ->
      Headers.contains (Request.headers (HTTPFlow.request f)) "X-Original-Host" = false ->
      exists f',
        run_hook response f
        = Return (f', [response_record "unknown" (Request.path (HTTPFlow.request f))
                                       (Response.status_code resp)])
        /\ no_markers f').
Proof.
  intros Hr. split; [|split; [|split]].
  - destruct (option_eqb (Headers.get (Request.headers (HTTPFlow.request f)) "X-Intercepted-By")
                         "cyber-drill-gateway") eqn:Em.
    + destruct (Headers.get (Request.headers (HTTPFlow.request f)) "X-Intercepted-By")
        as [v|] eqn:Eg; [|discriminate].
      simpl in Em. apply String.eqb_eq in Em. subst v.
      rewrite (run_response_cleans f resp Eg Hr). eauto.
    + rewrite (run_response_skips f Em). eauto.
  - intros Hc. apply run_response_skips.
    apply contains_false_iff in Hc. apply get_none_iff in Hc. now rewrite Hc.
  - intros v Hv Hne. apply run_response_skips. rewrite Hv. simpl.
    now apply String.eqb_neq.
  - intros Hm Ho. rewrite (run_response_cleans f resp Hm Hr).
    eexists. split; [|apply cleaned_has_no_markers].
    unfold Headers.get_default, Headers.getitem.
    apply contains_false_iff in Ho. now rewrite Ho.
Qed.

Lemma response_never_raises_witness :
  exists f',
    run_hook response
      {| HTTPFlow.request :=
           sample_request "127.0.0.1" [("Accept", "*/*"); ("x-intercepted-by", "cyber-drill-gateway")];
         HTTPFlow.response := Some ok200 |}
    = Return (f', [(Info, "[gateway-addon] response: unknown/v1/chat/completions?stream=1 -> status=200")])
    /\ no_markers f'.
Proof.
  refine (proj2 (proj2 (proj2 (response_never_raises
            {| HTTPFlow.request :=
                 sample_request "127.0.0.1" [("Accept", "*/*"); ("x-intercepted-by", "cyber-drill-gateway")];
               HTTPFlow.response := Some ok200 |} ok200 eq_refl))) _ _); reflexivity.
Defined.

(** C7 as stated fails: a flow that carries the intercepted marker with
    another value, and no original-host marker, gets no record with the word
    unknown and keeps its marker; the hook returns it as it was. *)
Lemma other_marker_value_is_left_alone :
  run_hook response
    {| HTTPFlow.request :=
         sample_request "example.com" [("X-Intercepted-By", "some-other-proxy")];
       HTTPFlow.response := Some ok200 |}
  = Return ({| HTTPFlow.request :=
                 sample_request "example.com" [("X-Intercepted-By", "some-other-proxy")];
               HTTPFlow.response := Some ok200 |}, [])
  /\ Headers.contains [("X-Intercepted-By", "some-other-proxy")] "X-Intercepted-By" = true
  /\ Headers.contains [("X-Intercepted-By", "some-other-proxy")] "X-Original-Host" = false.
Proof. repeat split. Qed.

(** C9.  The response hook decides by the value of the intercepted marker.
    When the value is the tag it writes one record and returns the flow
    without either marker.  When the header is present with another value
    it returns the flow as it was, the header still present, and writes no
    record.  Whenever it writes a record or changes the flow, the value was
    the tag. *)
Theorem response_decides_by_value (f : HTTPFlow.t) :
  (forall resp : Response.t,
      HTTPFlow.response f = Some resp ->
      Headers.get (Request.headers (HTTPFlow.request f)) "X-Intercepted-By"
      = Some "cyber-drill-gateway" ->
      exists f' record, run_hook response f = Return (f', [record]) /\ no_markers f')
  /\ (forall v : string,
         Headers.get (Request.headers (HTTPFlow.request f)) "X-Intercepted-By" = Some v ->
         v <> "cyber-drill-gateway" ->
         run_hook response f = Return (f, [])
         /\ Headers.contains (Request.headers (HTTPFlow.request f)) "X-Intercepted-By" = true)
  /\ (forall (f' : HTTPFlow.t) (records : list (level * string)),
         run_hook response f = Return (f', records) ->
         records <> [] \/ f' <> f ->
         Headers.get (Request.headers (HTTPFlow.request f)) "X-Intercepted-By"
         = Some "cyber-drill-gateway").
Proof.
  split; [|split].
  - intros resp Hr Hm. rewrite (run_response_cleans f resp Hm Hr).
    eexists. eexists. split; [reflexivity | apply cleaned_has_no_markers].
  - intros v Hv Hne. split; [|exact (get_some_contains _ _ _ Hv)].
    apply run_response_skips. rewrite Hv. simpl. now apply String.eqb_neq.
  - intros f' records Hrun Hch.
    destruct (option_eqb (Headers.get (Request.headers (HTTPFlow.request f)) "X-Intercepted-By")
                         "cyber-drill-gateway") eqn:Em.
    + destruct (Headers.get (Request.headers (HTTPFlow.request f)) "X-Intercepted-By")
        as [v|]; [|discriminate].
      simpl in Em. apply String.eqb_eq in Em. now subst v.
    + rewrite (run_response_skips f Em) in Hrun. injection Hrun as <- <-.
      destruct Hch as [H | H]; now elim H.
Qed.

Lemma response_decides_by_value_witness :
  run_hook response
    {| HTTPFlow.request :=
         sample_request "example.com"
           [("X-Intercepted-By", "some-other-proxy"); ("X-Original-Host", "internal.example")];
       HTTPFlow.response := Some ok200 |}
  = Return ({| HTTPFlow.request :=
                 sample_request "example.com"
                   [("X-Intercepted-By", "some-other-proxy"); ("X-Original-Host", "internal.example")];
               HTTPFlow.response := Some ok200 |}, [])
  /\ Headers.contains
       [("X-Intercepted-By", "some-other-proxy"); ("X-Original-Host", "internal.example")]
       "X-Intercepted-By" = true.
Proof.
  refine (proj1 (proj2 (response_decides_by_value
            {| HTTPFlow.request :=
                 sample_request "example.com"
                   [("X-Intercepted-By", "some-other-proxy"); ("X-Original-Host", "internal.example")];
               HTTPFlow.response := Some ok200 |})) "some-other-proxy" eq_refl _).
  discriminate.
Defined.

(** ** One transaction *)

Lemma run_transaction {G : Globals} {E : Engine} (f : HTTPFlow.t) (resp : Response.t) :
  run_hook (transaction resp) f
  = match request {| flow := f; log := [] |} with
    | Return (_, w) =>
        match response {| flow := HTTPFlow.set_response resp (flow w); log := log w |} with
        | Return (_, w') => Return (flow w', log w')
        | Raise e => Raise e
        end
    | Raise e => Raise e
    end.
Proof.
  unfold run_hook, transaction, bind.
  destruct (request {| flow := f; log := [] |}) as [[u w]|e]; reflexivity.
Qed.

(** C1, as the code has it.  A transaction (request hook, response attached,
    response hook) returns, and neither reserved header is present on the
    request afterwards, for every flow that the request hook matched, or
    whose intercepted marker holds the tag, or that arrived with neither
    reserved header. *)
Theorem transaction_leaves_no_marker {G : Globals} {E : Engine}
        (f : HTTPFlow.t) (resp : Response.t) :
  matched f = true
  \/ Headers.get (Request.headers (HTTPFlow.request f)) "X-Intercepted-By"
     = Some "cyber-drill-gateway"
  \/ no_markers f ->
  exists f' records,
    run_hook (transaction resp) f = Return (f', records) /\ no_markers f'.
Proof.
  intros H. rewrite run_transaction.
  destruct (matched f) eqn:Em.
  - rewrite (request_rewrites f [] Em). cbn [flow log].
    rewrite (response_cleans
               (HTTPFlow.set_response resp
                  (HTTPFlow.set_request (rewritten (HTTPFlow.request f)) f))
               resp _ (rewritten_is_marked (HTTPFlow.request f)) eq_refl).
    cbn [flow log]. eexists. eexists. split; [reflexivity|].
    apply cleaned_has_no_markers.
  - rewrite (request_passes f [] Em). cbn [flow log].
    destruct H as [H | [H | H]]; [discriminate | |].
    + rewrite (response_cleans (HTTPFlow.set_response resp f) resp _ H eq_refl).
      cbn [flow log]. eexists. eexists. split; [reflexivity|].
      apply cleaned_has_no_markers.
    + rewrite response_skips.
      * cbn [flow log]. eexists. eexists. split; [reflexivity | exact H].
      * destruct H as [H _]. cbn [HTTPFlow.request HTTPFlow.set_response].
        apply contains_false_iff in H. apply get_none_iff in H. now rewrite H.
Qed.

Lemma transaction_leaves_no_marker_witness :
  exists f' records,
    run_hook (@transaction default_globals plain_engine ok200)
             (sample_flow "api.codeium.com"
                [("X-Original-Host", "spoofed"); ("Accept", "*/*"); ("x-intercepted-by", "spoofed")])
    = Return (f', records)
    /\ no_markers f'.
Proof.
  apply (@transaction_leaves_no_marker default_globals plain_engine
           (sample_flow "api.codeium.com"
              [("X-Original-Host", "spoofed"); ("Accept", "*/*"); ("x-intercepted-by", "spoofed")])
           ok200).
  left. reflexivity.
Defined.

(** C1 as stated fails: a request to a host outside the rules that arrives
    with an original-host header, or with an intercepted marker of another
    value, goes through both hooks unchanged, the reserved header still on
    it, and no record is written. *)
Lemma reserved_header_survives_transaction :
  run_hook (@transaction default_globals plain_engine ok200)
           (sample_flow "example.com" [("X-Original-Host", "internal.example")])
  = Return ({| HTTPFlow.request :=
                 sample_request "example.com" [("X-Original-Host", "internal.example")];
               HTTPFlow.response := Some ok200 |}, [])
  /\ Headers.contains [("X-Original-Host", "internal.example")] "X-Original-Host" = true
  /\ run_hook response
       {| HTTPFlow.request :=
            sample_request "example.com" [("X-Intercepted-By", "some-other-proxy")];
          HTTPFlow.response := Some ok200 |}
     = Return ({| HTTPFlow.request :=
                    sample_request "example.com" [("X-Intercepted-By", "some-other-proxy")];
                  HTTPFlow.response := Some ok200 |}, [])
  /\ Headers.contains [("X-Intercepted-By", "some-other-proxy")] "X-Intercepted-By" = true.
Proof. repeat split. Qed.

(** ** The gateway target *)

Lemma hostname_not_empty (p : urllib.ParseResult) (h : string) :
  urllib.hostname p = Some h -> h <> "".
Proof.
  unfold urllib.hostname.
  destruct (fst (urllib._hostinfo p)) as [|c s] eqn:Eh; [discriminate|].
  cbn [String.eqb]. cbn [Str.partition].
  destruct (Ascii.eqb c "%") eqn:Ec.
  - intros [= <-]. discriminate.
  - destruct (Str.partition "%" s) as [[before found] after].
    intros [= <-]. discriminate.
Qed.

(** C8, as the code has it.  Whenever the gateway URL parses and its port
    component is read without error, the module loads; the gateway host is
    127.0.0.1 when the URL has no host and the URL's host otherwise; and
    when the URL has no port, the gateway port is 443 for the scheme https
    and 80 for any other scheme.  A URL without a port component never
    fails the port reading.  The URL http://1.2.3.4:18790 resolves to scheme
    http, host 1.2.3.4 and port 18790, and https://gw.example.com to port
    443.  When the URL does not parse, or its port component cannot be
    read, loading the module raises that error and resolves nothing. *)
Theorem gateway_target_defaults :
  (forall (V : urllib.Validation) (url token : string) (domains : list string)
          (prefix : string) (p : urllib.ParseResult) (port : option Z),
      urllib.urlparse url = Return p ->
      urllib.port p = Return port ->
      exists g : Globals,
        load_module url token domains prefix = Return g
        /\ (urllib.hostname p = None -> @GATEWAY_HOST g = "127.0.0.1")
        /\ (forall h, urllib.hostname p = Some h -> @GATEWAY_HOST g = h)
        /\ (port = None ->
            @GATEWAY_PORT g = if String.eqb (urllib.scheme p) "https" then 443 else 80))
  /\ (forall p : urllib.ParseResult,
         snd (urllib._hostinfo p) = None -> urllib.port p = Return None)
  /\ (forall (V : urllib.Validation) (token : string) (domains : list string) (prefix : string),
         exists g : Globals,
           load_module "http://1.2.3.4:18790" token domains prefix = Return g
           /\ @GATEWAY_SCHEME g = "http"
           /\ @GATEWAY_HOST g = "1.2.3.4"
           /\ @GATEWAY_PORT g = 18790)
  /\ (forall (V : urllib.Validation) (token : string) (domains : list string) (prefix : string),
         exists g : Globals,
           load_module "https://gw.example.com" token domains prefix = Return g
           /\ @GATEWAY_SCHEME g = "https"
           /\ @GATEWAY_HOST g = "gw.example.com"
           /\ @GATEWAY_PORT g = 443)
  /\ (forall (V : urllib.Validation) (url token : string) (domains : list string)
             (prefix : string) (e : exn),
         urllib.urlparse url = Raise e
         \/ (exists p, urllib.urlparse url = Return p /\ urllib.port p = Raise e) ->
         load_module url token domains prefix = Raise e).
Proof.
  split; [|split; [|split; [|split]]].
  - intros V url token domains prefix p port Hp Hport.
    unfold load_module. rewrite Hp. cbn [rbind]. rewrite Hport. cbn [rbind].
    eexists. split; [reflexivity|]. cbn [GATEWAY_HOST GATEWAY_PORT].
    split; [|split].
    + intros ->. reflexivity.
    + intros h Hh. rewrite Hh. cbn [or_str].
      destruct (String.eqb_spec h ""); [|reflexivity].
      now elim (hostname_not_empty p h Hh).
    + intros ->. reflexivity.
  - intros p Hp. unfold urllib.port. now rewrite Hp.
  - intros V token domains prefix. eexists. split; [reflexivity|]. repeat split.
  - intros V token domains prefix. eexists. split; [reflexivity|]. repeat split.
  - intros V url token domains prefix e [Hp | [p [Hp Hport]]]; unfold load_module.
    + now rewrite Hp.
    + rewrite Hp. cbn [rbind]. now rewrite Hport.
Qed.

Lemma gateway_target_defaults_witness :
  exists g : Globals,
    @load_module lenient "https:///status" "sk-deploy-001" ["api.codeium.com"] "" = Return g
    /\ @GATEWAY_HOST g = "127.0.0.1"
    /\ @GATEWAY_PORT g = 443.
Proof.
  destruct (proj1 gateway_target_defaults lenient "https:///status" "sk-deploy-001"
              ["api.codeium.com"] "" {| urllib.scheme := "https"; urllib.netloc := "" |}
              None eq_refl eq_refl) as [g [Hg [Hh [_ Hp]]]].
  exists g. split; [exact Hg|]. split; [exact (Hh eq_refl) | exact (Hp eq_refl)].
Defined.

(** C8 as stated fails: it speaks of every URL string, yet a URL without a
    host whose port is not a number, and a URL with an unclosed bracket,
    make the module fail to load, so that no host or port is resolved. *)
Lemma unreadable_url_resolves_nothing :
  (forall (V : urllib.Validation) (token : string) (domains : list string) (prefix : string),
      load_module "http://:80a" token domains prefix
      = Raise (ValueError "Port could not be cast to integer value"))
  /\ (forall V : urllib.Validation,
         exists p, urllib.urlparse "http://:80a" = Return p /\ urllib.hostname p = None)
  /\ (forall (V : urllib.Validation) (token : string) (domains : list string) (prefix : string),
         load_module "http://[::1" token domains prefix
         = Raise (ValueError "Invalid IPv6 URL")).
Proof.
  split; [|split].
  - reflexivity.
  - intros V. eexists. split; reflexivity.
  - reflexivity.
Qed.

(** The settings of a process started with an empty environment are those of
    [default_globals]. *)
Lemma default_globals_loaded (V : urllib.Validation) :
  load_module "http://127.0.0.1:18790" "sk-deploy-001"
              ["api.codeium.com"; "server.codeium.com"; "web-backend.codeium.com"] ""
  = Return default_globals.
Proof. reflexivity. Qed.

(** ** Scenarios *)

(** A flow the rules do not match leaves the request hook as it came, and no
    record is written. *)
Lemma unmatched_flow_passes {G : Globals} {E : Engine} (f : HTTPFlow.t) :
  matched f = false -> run_hook request f = Return (f, []).
Proof. intros H. unfold run_hook. now rewrite (request_passes f [] H). Qed.

Example scenario_example_com :
  run_hook (@request default_globals plain_engine)
           (sample_flow "example.com" [("Authorization", "Bearer client")])
  = Return (sample_flow "example.com" [("Authorization", "Bearer client")], []).
Proof. reflexivity. Qed.

Example scenario_codeium_transaction :
  run_hook (@transaction default_globals plain_engine ok200)
           (sample_flow "api.codeium.com" [("Authorization", "Bearer client")])
  = Return
      ({| HTTPFlow.request :=
            {| Request.scheme := "http";
               Request.host := "127.0.0.1";
               Request.port := 18790;
               Request.path := "/v1/chat/completions?stream=1";
               Request.method := "POST";
               Request.content := "{}";
               Request.headers := [("Authorization", "Bearer sk-deploy-001")];
               Request.authority := "" |};
          HTTPFlow.response := Some ok200 |},
       [(Info, "[gateway-addon] intercepted: https://api.codeium.com/v1/chat/completions?stream=1 -> http://127.0.0.1:18790/v1/chat/completions?stream=1");
        (Info, "[gateway-addon] response: api.codeium.com/v1/chat/completions?stream=1 -> status=200")]).
Proof. reflexivity. Qed.

(** A response hook called on a marked flow that has no response raises. *)
Example scenario_marked_without_response :
  run_hook response
           (sample_flow "127.0.0.1" [("X-Intercepted-By", "cyber-drill-gateway")])
  = Raise (AttributeError "status_code").
Proof. reflexivity. Qed.

(** Two fields of the intercepted marker read as one joined value, which is
    not the tag: the hook leaves such a flow alone. *)
Example scenario_marker_twice :
  Headers.get [("X-Intercepted-By", "cyber-drill-gateway"); ("x-intercepted-by", "cyber-drill-gateway")]
              "X-Intercepted-By"
  = Some "cyber-drill-gateway, cyber-drill-gateway".
Proof. reflexivity. Qed.

(* ================================================================== *)
(** * Further properties of the addon *)

(** ** More on strings *)

Lemma append_assoc_str (s t u : string) : (s ++ t) ++ u = s ++ (t ++ u).
Proof. induction s; simpl; congruence. Qed.

Lemma append_nil_r (s : string) : s ++ "" = s.
Proof. induction s; simpl; congruence. Qed.

Lemma append_cancel_r (s s' t : string) : s ++ t = s' ++ t -> s = s'.
Proof.
  revert s'. induction s as [|a s IH]; intros s' H.
  - destruct s' as [|b s']; [reflexivity|].
    apply (f_equal String.length) in H. simpl in H. rewrite append_length in H. lia.
  - destruct s' as [|b s'].
    + apply (f_equal String.length) in H. simpl in H. rewrite append_length in H. lia.
    + simpl in H. injection H as -> H. f_equal. now apply IH.
Qed.

Lemma startswith_refl (s : string) : Str.startswith s s = true.
Proof. apply startswith_iff. exists "". now rewrite append_nil_r. Qed.

(** ** The interception decision, continued *)

Lemma domain_rule_subdomain (h d pre : string) :
  domain_rule h d = true -> domain_rule (pre ++ "." ++ h) d = true.
Proof.
  rewrite !domain_rule_iff. intros [-> | [q ->]]; right.
  - now exists pre.
  - exists (pre ++ "." ++ q). now rewrite !append_assoc_str.
Qed.

(** X1.  Interception extends to every subdomain, at any depth: when a host
    is intercepted on a path, so is every host made of further labels, a
    dot, and that host. *)
Theorem subdomains_are_intercepted {G : Globals} (h pre p : string) :
  _should_intercept h p = true -> _should_intercept (pre ++ "." ++ h) p = true.
Proof.
  rewrite !should_intercept_unfold, !andb_true_iff. intros [Hd Hp].
  split; [|exact Hp]. unfold domain_match in *.
  apply existsb_exists in Hd. destruct Hd as [d [Hin Hd]].
  apply existsb_exists. exists d. split; [exact Hin|].
  now apply domain_rule_subdomain.
Qed.

Lemma subdomains_are_intercepted_witness :
  @_should_intercept default_globals ("eu.cdn" ++ "." ++ "api.codeium.com") "/v1/chat" = true.
Proof.
  apply (@subdomains_are_intercepted default_globals "api.codeium.com" "eu.cdn" "/v1/chat").
  reflexivity.
Defined.

(** X2.  A rule set that is the concatenation of two decides as the
    disjunction of the two, under the same path prefix. *)
Theorem rule_sets_combine_by_or (G G1 G2 : Globals) (h p : string) :
  @INTERCEPT_DOMAINS G = (@INTERCEPT_DOMAINS G1 ++ @INTERCEPT_DOMAINS G2)%list ->
  @INTERCEPT_PATH_PREFIX G1 = @INTERCEPT_PATH_PREFIX G ->
  @INTERCEPT_PATH_PREFIX G2 = @INTERCEPT_PATH_PREFIX G ->
  @_should_intercept G h p = @_should_intercept G1 h p || @_should_intercept G2 h p.
Proof.
  intros Hd H1 H2. rewrite !should_intercept_unfold. unfold domain_match.
  rewrite Hd, H1, H2, existsb_app.
  destruct (existsb (domain_rule h) (@INTERCEPT_DOMAINS G1));
    destruct (existsb (domain_rule h) (@INTERCEPT_DOMAINS G2));
    destruct (String.eqb (@INTERCEPT_PATH_PREFIX G) "" || Str.startswith p (@INTERCEPT_PATH_PREFIX G));
    reflexivity.
Qed.

Lemma rule_sets_combine_by_or_witness :
  @_should_intercept (with_rules ["a.example"; "b.example"] "/v1") "x.b.example" "/v1/y"
  = @_should_intercept (with_rules ["a.example"] "/v1") "x.b.example" "/v1/y"
    || @_should_intercept (with_rules ["b.example"] "/v1") "x.b.example" "/v1/y".
Proof.
  apply (rule_sets_combine_by_or (with_rules ["a.example"; "b.example"] "/v1")
           (with_rules ["a.example"] "/v1") (with_rules ["b.example"] "/v1"));
    reflexivity.
Defined.

(** X3.  Whatever is appended to an intercepted path (a longer path, a query
    string), the request is still intercepted. *)
Theorem longer_paths_are_intercepted {G : Globals} (h p q : string) :
  _should_intercept h p = true -> _should_intercept h (p ++ q) = true.
Proof.
  rewrite !should_intercept_unfold, !andb_true_iff, !orb_true_iff, !startswith_iff.
  intros [Hd [He | [rest ->]]]; (split; [exact Hd|]).
  - now left.
  - right. exists (rest ++ q). now rewrite append_assoc_str.
Qed.

Lemma longer_paths_are_intercepted_witness :
  @_should_intercept (with_rules ["api.codeium.com"] "/v1/chat") "api.codeium.com"
     ("/v1/chat" ++ "/completions?stream=1") = true.
Proof.
  apply (@longer_paths_are_intercepted (with_rules ["api.codeium.com"] "/v1/chat")
           "api.codeium.com" "/v1/chat" "/completions?stream=1").
  reflexivity.
Defined.

(** X4.  A rule domain matches only at a label boundary: a host made of a
    non-empty prefix that does not end with a dot, followed by the rule
    domain, matches that rule neither exactly nor as a subdomain, and a rule
    set holding that domain alone never intercepts it. *)
Theorem rule_matches_at_label_boundary (pre d : string) :
  pre <> "" -> Str.endswith pre "." = false ->
  domain_rule (pre ++ d) d = false
  /\ (forall (G : Globals) (p : string),
         INTERCEPT_DOMAINS = [d] -> _should_intercept (pre ++ d) p = false).
Proof.
  intros Hne Hdot.
  assert (Hr : domain_rule (pre ++ d) d = false).
  { destruct (domain_rule (pre ++ d) d) eqn:E; [|reflexivity].
    apply domain_rule_iff in E. destruct E as [E | [q E]].
    - change d with ("" ++ d) in E at 2. apply append_cancel_r in E. contradiction.
    - rewrite <- append_assoc_str in E. apply append_cancel_r in E.
      assert (Hc : Str.endswith pre "." = true) by (apply endswith_iff; now exists q).
      congruence. }
  split; [exact Hr|].
  intros G p HG. rewrite should_intercept_unfold. unfold domain_match.
  rewrite HG. simpl. now rewrite Hr.
Qed.

Lemma rule_matches_at_label_boundary_witness :
  domain_rule ("not" ++ "api.codeium.com") "api.codeium.com" = false.
Proof.
  apply (rule_matches_at_label_boundary "not" "api.codeium.com");
    [discriminate | reflexivity].
Defined.

(** ** The hooks, continued *)

Lemma marker_test_cases (h : Headers.t) :
  Headers.get h "X-Intercepted-By" = Some "cyber-drill-gateway"
  \/ option_eqb (Headers.get h "X-Intercepted-By") "cyber-drill-gateway" = false.
Proof.
  destruct (Headers.get h "X-Intercepted-By") as [v|]; [|now right].
  simpl. destruct (String.eqb_spec v "cyber-drill-gateway"); [left; now subst | now right].
Qed.

Lemma no_markers_skips (f : HTTPFlow.t) :
  no_markers f ->
  option_eqb (Headers.get (Request.headers (HTTPFlow.request f)) "X-Intercepted-By")
             "cyber-drill-gateway" = false.
Proof.
  intros [H _]. apply contains_false_iff in H. apply get_none_iff in H. now rewrite H.
Qed.

Lemma without_markers_keeps (P : string * string -> bool) (h : Headers.t) :
  (forall field, marker_header field = true -> P field = true) ->
  filter (fun field => negb (P field)) (without_markers h)
  = filter (fun field => negb (P field)) h.
Proof.
  intros HP. unfold without_markers.
  rewrite !filter_filter_sub; [reflexivity | |];
    intros field Hf; apply negb_true_iff; apply negb_true_iff in Hf;
    destruct (Headers.same_key _ field) eqn:Ek; try reflexivity;
    rewrite HP in Hf; try discriminate; unfold marker_header; rewrite Ek;
    auto using orb_true_r.
Qed.

Lemma get_all_without_markers (key : string) (h : Headers.t) :
  Headers._kconv "X-Original-Host" <> Headers._kconv key ->
  Headers._kconv "X-Intercepted-By" <> Headers._kconv key ->
  Headers.get_all (without_markers h) key = Headers.get_all h key.
Proof.
  intros Ho Hi. unfold without_markers.
  now rewrite !get_all_deleted_other.
Qed.

(** X5.  A flow that the rules do not match and whose intercepted marker is
    not the tag goes through a whole transaction untouched: the flow that
    comes out is the flow that went in with the response attached, and no
    record is written. *)
Theorem unmatched_transaction_is_transparent {G : Globals} {E : Engine}
        (f : HTTPFlow.t) (resp : Response.t) :
  matched f = false ->
  option_eqb (Headers.get (Request.headers (HTTPFlow.request f)) "X-Intercepted-By")
             "cyber-drill-gateway" = false ->
  run_hook (transaction resp) f = Return (HTTPFlow.set_response resp f, []).
Proof.
  intros Hm Ht. rewrite run_transaction, (request_passes f [] Hm). cbn [flow log].
  now rewrite (response_skips (HTTPFlow.set_response resp f) [] Ht).
Qed.

Lemma unmatched_transaction_is_transparent_witness :
  run_hook (@transaction default_globals plain_engine ok200)
           (sample_flow "codeium.com.example.org" [("Authorization", "Bearer client")])
  = Return (HTTPFlow.set_response ok200
              (sample_flow "codeium.com.example.org" [("Authorization", "Bearer client")]), []).
Proof.
  apply (@unmatched_transaction_is_transparent default_globals plain_engine); reflexivity.
Defined.

(** X6.  A matched flow leaves a whole transaction pointing at the gateway
    with the gateway credential: scheme, host and port are the gateway's,
    Authorization is the single gateway value, neither marker is left, a
    Host field that it carried holds the gateway's host and port, and path,
    method, body and the fields of every other name are as they came.  The
    two records written are the request record and a response record that
    names the host seen before the rewrite, whatever original-host header
    the client sent. *)
Theorem matched_transaction_outcome {G : Globals} {E : Engine}
        (f : HTTPFlow.t) (resp : Response.t) :
  matched f = true ->
  exists f',
    run_hook (transaction resp) f
    = Return (f', [request_record (HTTPFlow.request f);
                   response_record (pretty_host (HTTPFlow.request f))
                                   (Request.path (HTTPFlow.request f))
                                   (Response.status_code resp)])
    /\ Request.scheme (HTTPFlow.request f') = GATEWAY_SCHEME
    /\ Request.host (HTTPFlow.request f') = GATEWAY_HOST
    /\ Request.port (HTTPFlow.request f') = GATEWAY_PORT
    /\ Headers.get_all (Request.headers (HTTPFlow.request f')) "Authorization"
       = ["Bearer " ++ GATEWAY_TOKEN]
    /\ no_markers f'
    /\ Request.path (HTTPFlow.request f') = Request.path (HTTPFlow.request f)
    /\ Request.method (HTTPFlow.request f') = Request.method (HTTPFlow.request f)
    /\ Request.content (HTTPFlow.request f') = Request.content (HTTPFlow.request f)
    /\ filter (fun field => negb (rewritten_or_host field))
              (Request.headers (HTTPFlow.request f'))
       = filter (fun field => negb (rewritten_or_host field))
                (Request.headers (HTTPFlow.request f))
    /\ (Headers.contains (Request.headers (HTTPFlow.request f)) "Host" = true ->
        Headers.get_all (Request.headers (HTTPFlow.request f')) "Host"
        = [Url.hostport GATEWAY_SCHEME GATEWAY_HOST GATEWAY_PORT])
    /\ (Headers.contains (Request.headers (HTTPFlow.request f)) "Host" = false ->
        Headers.contains (Request.headers (HTTPFlow.request f')) "Host" = false)
    /\ HTTPFlow.response f' = Some resp.
Proof.
  intros Hm. rewrite run_transaction, (request_rewrites f [] Hm). cbn [flow log].
  rewrite (response_cleans
             (HTTPFlow.set_response resp
                (HTTPFlow.set_request (rewritten (HTTPFlow.request f)) f))
             resp _ (rewritten_is_marked (HTTPFlow.request f)) eq_refl).
  cbn [flow log]. eexists. split.
  { cbn [HTTPFlow.request HTTPFlow.set_response HTTPFlow.set_request app].
    assert (Hpath : Request.path (rewritten (HTTPFlow.request f))
                    = Request.path (HTTPFlow.request f)).
    { unfold rewritten. cbn [Request.path Request.set_headers].
      apply redirected_fields. }
    assert (Hoh : Headers.get_default (Request.headers (rewritten (HTTPFlow.request f)))
                                      "X-Original-Host" "unknown"
                  = pretty_host (HTTPFlow.request f)).
    { unfold rewritten. cbn [Request.headers Request.set_headers].
      unfold Headers.get_default, Headers.getitem.
      rewrite get_all_setitem_other by (vm_compute; discriminate).
      rewrite get_all_setitem_same. reflexivity. }
    rewrite Hpath, Hoh. reflexivity. }
  destruct (redirected_fields (HTTPFlow.request f)) as [Hs [Hh [Hp [Hpath [Hmeth Hcont]]]]].
  assert (Hhd := redirected_headers (HTTPFlow.request f)).
  cbn [HTTPFlow.request HTTPFlow.set_response HTTPFlow.set_request HTTPFlow.response
       rewritten Request.set_headers
       Request.path Request.method Request.content Request.headers
       Request.scheme Request.host Request.port].
  split; [exact Hs|]. split; [exact Hh|]. split; [exact Hp|].
  split.
  { rewrite get_all_without_markers by (vm_compute; discriminate).
    rewrite !get_all_setitem_other by (vm_compute; discriminate).
    apply get_all_setitem_same. }
  split; [apply (cleaned_has_no_markers _ f)|].
  split; [exact Hpath|]. split; [exact Hmeth|]. split; [exact Hcont|].
  split.
  { rewrite without_markers_keeps.
    - rewrite !rewritten_or_host_frame by reflexivity. rewrite Hhd.
      destruct (Headers.contains (Request.headers (HTTPFlow.request f)) "Host");
        [|reflexivity].
      now rewrite !rewritten_or_host_frame by reflexivity.
    - intros field. unfold marker_header, rewritten_or_host, rewritten_header.
      destruct (Headers.same_key "X-Original-Host" field);
        destruct (Headers.same_key "X-Intercepted-By" field);
        destruct (Headers.same_key "Authorization" field);
        destruct (Headers.same_key "Host" field); simpl; congruence. }
  split; [|split; [|reflexivity]].
  - intros Hc. rewrite get_all_without_markers by (vm_compute; discriminate).
    rewrite !get_all_setitem_other by (vm_compute; discriminate).
    rewrite Hhd, Hc. apply get_all_setitem_same.
  - intros Hc. apply contains_false_iff.
    rewrite get_all_without_markers by (vm_compute; discriminate).
    rewrite !get_all_setitem_other by (vm_compute; discriminate).
    rewrite Hhd, Hc. now apply contains_false_iff.
Qed.

Lemma matched_transaction_outcome_witness :
  exists f',
    run_hook (@transaction default_globals plain_engine ok200)
             (sample_flow "api.codeium.com"
                [("Host", "api.codeium.com"); ("X-Original-Host", "forged.example");
                 ("Accept", "*/*")])
    = Return (f', [(Info, "[gateway-addon] intercepted: https://api.codeium.com/v1/chat/completions?stream=1 -> http://127.0.0.1:18790/v1/chat/completions?stream=1");
                   (Info, "[gateway-addon] response: api.codeium.com/v1/chat/completions?stream=1 -> status=200")])
    /\ Request.headers (HTTPFlow.request f')
       = [("Host", "127.0.0.1:18790"); ("Accept", "*/*");
          ("Authorization", "Bearer sk-deploy-001")].
Proof.
  destruct (@matched_transaction_outcome default_globals plain_engine
              (sample_flow "api.codeium.com"
                 [("Host", "api.codeium.com"); ("X-Original-Host", "forged.example");
                  ("Accept", "*/*")])
              ok200 eq_refl) as [f' [Hrun _]].
  exists f'. split; [exact Hrun|].
  vm_compute in Hrun. injection Hrun as <-. reflexivity.
Defined.

(** X7.  The response hook touches nothing but the two marker fields: on a
    flow that has a response it returns a flow with the same scheme, host,
    port, path, method, body and response, whose header fields are either
    those it received or those it received minus the marker fields, and it
    writes at most one record.  In particular the injected Authorization
    value is not taken back. *)
Theorem response_frame (f : HTTPFlow.t) (resp : Response.t) :
  HTTPFlow.response f = Some resp ->
  exists f' records,
    run_hook response f = Return (f', records)
    /\ (length records <= 1)%nat
    /\ Request.scheme (HTTPFlow.request f') = Request.scheme (HTTPFlow.request f)
    /\ Request.host (HTTPFlow.request f') = Request.host (HTTPFlow.request f)
    /\ Request.port (HTTPFlow.request f') = Request.port (HTTPFlow.request f)
    /\ Request.path (HTTPFlow.request f') = Request.path (HTTPFlow.request f)
    /\ Request.method (HTTPFlow.request f') = Request.method (HTTPFlow.request f)
    /\ Request.content (HTTPFlow.request f') = Request.content (HTTPFlow.request f)
    /\ HTTPFlow.response f' = HTTPFlow.response f
    /\ (Request.headers (HTTPFlow.request f') = Request.headers (HTTPFlow.request f)
        \/ Request.headers (HTTPFlow.request f')
           = without_markers (Request.headers (HTTPFlow.request f)))
    /\ filter (fun field => negb (marker_header field))
              (Request.headers (HTTPFlow.request f'))
       = filter (fun field => negb (marker_header field))
                (Request.headers (HTTPFlow.request f)).
Proof.
  intros Hr.
  destruct (marker_test_cases (Request.headers (HTTPFlow.request f))) as [Hm | Hm].
  - rewrite (run_response_cleans f resp Hm Hr). eexists. eexists.
    split; [reflexivity|]. simpl length.
    cbn [HTTPFlow.request HTTPFlow.set_request HTTPFlow.response Request.set_headers
         Request.path Request.method Request.content Request.headers
         Request.scheme Request.host Request.port].
    split; [lia|]. repeat (split; [reflexivity|]).
    split; [now right|]. now apply without_markers_keeps.
  - rewrite (run_response_skips f Hm). eexists. eexists.
    split; [reflexivity|]. simpl length. split; [lia|].
    repeat (split; [reflexivity|]). split; [now left | reflexivity].
Qed.

Lemma response_frame_witness :
  exists f' records,
    run_hook response
      {| HTTPFlow.request :=
           sample_request "127.0.0.1"
             [("Authorization", "Bearer sk-deploy-001"); ("X-Original-Host", "api.codeium.com");
              ("X-Intercepted-By", "cyber-drill-gateway")];
         HTTPFlow.response := Some ok200 |}
    = Return (f', records)
    /\ Request.headers (HTTPFlow.request f') = [("Authorization", "Bearer sk-deploy-001")].
Proof.
  destruct (response_frame
              {| HTTPFlow.request :=
                   sample_request "127.0.0.1"
                     [("Authorization", "Bearer sk-deploy-001"); ("X-Original-Host", "api.codeium.com");
                      ("X-Intercepted-By", "cyber-drill-gateway")];
                 HTTPFlow.response := Some ok200 |} ok200 eq_refl)
    as [f' [records [Hrun _]]].
  exists f', records. split; [exact Hrun|].
  vm_compute in Hrun. injection Hrun as <- _. reflexivity.
Defined.

Lemma run_response_raises (f : HTTPFlow.t) :
  Headers.get (Request.headers (HTTPFlow.request f)) "X-Intercepted-By"
  = Some "cyber-drill-gateway" ->
  HTTPFlow.response f = None ->
  run_hook response f = Raise (AttributeError "status_code").
Proof. intros Hm Hr. unfold run_hook. now rewrite (response_needs_a_response f [] Hm Hr). Qed.

(** X8.  The response hook is idempotent: whenever it returns, a second run
    on the flow it returned changes nothing and writes no record. *)
Theorem response_is_idempotent (f f1 : HTTPFlow.t) (records : list (level * string)) :
  run_hook response f = Return (f1, records) ->
  run_hook response f1 = Return (f1, []).
Proof.
  intros Hrun.
  destruct (marker_test_cases (Request.headers (HTTPFlow.request f))) as [Hm | Hm].
  - destruct (HTTPFlow.response f) as [resp|] eqn:Hr.
    + rewrite (run_response_cleans f resp Hm Hr) in Hrun. injection Hrun as <- _.
      apply run_response_skips, no_markers_skips, cleaned_has_no_markers.
    + rewrite (run_response_raises f Hm Hr) in Hrun. discriminate.
  - rewrite (run_response_skips f Hm) in Hrun. injection Hrun as <- _.
    now apply run_response_skips.
Qed.

Lemma response_is_idempotent_witness :
  run_hook response
    {| HTTPFlow.request := sample_request "127.0.0.1" [("Accept", "*/*")];
       HTTPFlow.response := Some ok200 |}
  = Return ({| HTTPFlow.request := sample_request "127.0.0.1" [("Accept", "*/*")];
               HTTPFlow.response := Some ok200 |}, []).
Proof.
  apply (response_is_idempotent
           {| HTTPFlow.request :=
                sample_request "127.0.0.1"
                  [("Accept", "*/*"); ("X-Intercepted-By", "cyber-drill-gateway")];
              HTTPFlow.response := Some ok200 |}
           _
           [(Info, "[gateway-addon] response: unknown/v1/chat/completions?stream=1 -> status=200")]).
  reflexivity.
Defined.

(** X9.  The response hook trusts the marker it reads: a flow that the
    rules do not match but that arrives carrying the intercepted marker with
    the tag is not rewritten, yet the response hook writes a response record
    for it, naming the original host the client put in the header (or the
    word unknown), and removes the marker fields. *)
Theorem client_sent_tag_is_trusted {G : Globals} {E : Engine}
        (f : HTTPFlow.t) (resp : Response.t) :
  matched f = false ->
  Headers.get (Request.headers (HTTPFlow.request f)) "X-Intercepted-By"
  = Some "cyber-drill-gateway" ->
  exists f',
    run_hook (transaction resp) f
    = Return (f', [response_record
                     (Headers.get_default (Request.headers (HTTPFlow.request f))
                                          "X-Original-Host" "unknown")
                     (Request.path (HTTPFlow.request f))
                     (Response.status_code resp)])
    /\ Request.scheme (HTTPFlow.request f') = Request.scheme (HTTPFlow.request f)
    /\ Request.host (HTTPFlow.request f') = Request.host (HTTPFlow.request f)
    /\ Request.port (HTTPFlow.request f') = Request.port (HTTPFlow.request f)
    /\ Request.headers (HTTPFlow.request f')
       = without_markers (Request.headers (HTTPFlow.request f)).
Proof.
  intros Hm Ht. rewrite run_transaction, (request_passes f [] Hm). cbn [flow log].
  rewrite (response_cleans (HTTPFlow.set_response resp f) resp [] Ht eq_refl).
  cbn [flow log]. eexists. split; [reflexivity|]. repeat split.
Qed.

Lemma client_sent_tag_is_trusted_witness :
  exists f',
    run_hook (@transaction default_globals plain_engine ok200)
             (sample_flow "example.com"
                [("X-Intercepted-By", "cyber-drill-gateway"); ("X-Original-Host", "bank.example")])
    = Return (f', [(Info, "[gateway-addon] response: bank.example/v1/chat/completions?stream=1 -> status=200")])
    /\ Request.host (HTTPFlow.request f') = "example.com"
    /\ Request.headers (HTTPFlow.request f') = [].
Proof.
  destruct (@client_sent_tag_is_trusted default_globals plain_engine
              (sample_flow "example.com"
                 [("X-Intercepted-By", "cyber-drill-gateway"); ("X-Original-Host", "bank.example")])
              ok200 eq_refl eq_refl) as [f' [Hrun [_ [Hh [_ Hd]]]]].
  exists f'. split; [exact Hrun|]. split; [exact Hh | exact Hd].
Defined.

(** X10.  The response hook fails in one situation only: it raises exactly
    when the intercepted marker reads as the tag and the flow has no
    response, and what it raises then is the attribute error of the missing
    response; the request hook never raises. *)
Theorem hooks_raise_only_without_response :
  (forall (f : HTTPFlow.t) (e : exn),
      run_hook response f = Raise e <->
      (Headers.get (Request.headers (HTTPFlow.request f)) "X-Intercepted-By"
       = Some "cyber-drill-gateway"
       /\ HTTPFlow.response f = None
       /\ e = AttributeError "status_code"))
  /\ (forall (G : Globals) (E : Engine) (f : HTTPFlow.t),
         exists f' records, run_hook request f = Return (f', records)).
Proof.
  split.
  - intros f e. split.
    + intros Hrun.
      destruct (marker_test_cases (Request.headers (HTTPFlow.request f))) as [Hm | Hm].
      * destruct (HTTPFlow.response f) as [resp|] eqn:Hr.
        -- rewrite (run_response_cleans f resp Hm Hr) in Hrun. discriminate.
        -- rewrite (run_response_raises f Hm Hr) in Hrun. injection Hrun as <-. auto.
      * rewrite (run_response_skips f Hm) in Hrun. discriminate.
    + intros [Hm [Hr ->]]. now apply run_response_raises.
  - intros G E f. unfold run_hook. destruct (matched f) eqn:Hm.
    + rewrite (request_rewrites f [] Hm). eauto.
    + rewrite (request_passes f [] Hm). eauto.
Qed.

Lemma hooks_raise_only_without_response_witness :
  run_hook response (sample_flow "127.0.0.1" [("x-intercepted-by", "cyber-drill-gateway")])
  = Raise (AttributeError "status_code").
Proof.
  apply (proj1 hooks_raise_only_without_response). repeat split.
Defined.

(** ** [load] *)

(** X11.  [load] always writes its three information records first, and a
    warning after them exactly when the domain list is empty, which is
    exactly when no host and path at all can be intercepted. *)
Theorem load_warns_iff_nothing_is_intercepted {G : Globals} {F : Formatting} (url : string) :
  (firstn 3 (load url)
   = [(Info, "[gateway-addon] gateway url: " ++ url);
      (Info, "[gateway-addon] intercept domains: " ++ format_domains INTERCEPT_DOMAINS);
      (Info, "[gateway-addon] intercept path prefix: " ++ INTERCEPT_PATH_PREFIX)])
  /\ ((exists msg, In (Warn, msg) (load url)) <-> INTERCEPT_DOMAINS = [])
  /\ ((exists msg, In (Warn, msg) (load url)) <->
      forall h p, _should_intercept h p = false).
Proof.
  assert (Hw : (exists msg, In (Warn, msg) (load url)) <-> INTERCEPT_DOMAINS = []).
  { unfold load. destruct INTERCEPT_DOMAINS as [|d ds]; simpl.
    - split; [reflexivity|]. intros _. eexists. do 3 right. left. reflexivity.
    - split; [|discriminate]. intros [msg H].
      repeat (destruct H as [H | H]; [discriminate|]). contradiction. }
  split; [|split; [exact Hw|]].
  - unfold load. destruct INTERCEPT_DOMAINS; reflexivity.
  - rewrite Hw. split.
    + intros H h p. unfold _should_intercept. now rewrite H.
    + intros H. destruct INTERCEPT_DOMAINS as [|d ds] eqn:Ed; [reflexivity|].
      specialize (H d INTERCEPT_PATH_PREFIX).
      rewrite should_intercept_unfold in H. unfold domain_match in H.
      rewrite Ed in H. cbn [existsb] in H. unfold domain_rule in H at 1.
      rewrite String.eqb_refl, startswith_refl, orb_true_r in H. discriminate.
Qed.

Lemma load_warns_iff_nothing_is_intercepted_witness :
  exists msg, In (Warn, msg) (@load (with_rules [] "/v1") bracketed "http://127.0.0.1:18790").
Proof.
  apply (proj1 (proj2 (@load_warns_iff_nothing_is_intercepted
                         (with_rules [] "/v1") bracketed "http://127.0.0.1:18790"))).
  reflexivity.
Defined.

(** ** The settings read from the environment *)

Lemma lstrip_head (p : ascii -> bool) (s : string) (a : ascii) (r : string) :
  Str.lstrip p s = String a r -> p a = false.
Proof.
  induction s as [|b s IH]; simpl; [discriminate|].
  destruct (p b) eqn:Eb; [exact IH|]. now intros [= <- _].
Qed.

Lemma lstrip_empty_iff (p : ascii -> bool) (s : string) :
  Str.lstrip p s = "" <-> Str.all_chars p s = true.
Proof.
  induction s as [|b s IH]; simpl; [tauto|].
  destruct (p b); simpl; [exact IH|]. split; discriminate.
Qed.

Lemma rstrip_empty_iff (p : ascii -> bool) (s : string) :
  rstrip p s = "" <-> Str.all_chars p s = true.
Proof.
  induction s as [|b s IH]; simpl; [tauto|].
  destruct (rstrip p s) as [|c r].
  - destruct (p b); simpl; [tauto|]. split; discriminate.
  - split; [discriminate|]. rewrite andb_true_iff. intros [_ H].
    apply IH in H. discriminate.
Qed.

Lemma rstrip_head (p : ascii -> bool) (s : string) (c : ascii) (r : string) :
  rstrip p s = String c r -> exists r', s = String c r'.
Proof.
  destruct s as [|a s]; simpl; [discriminate|].
  destruct (rstrip p s).
  - destruct (p a); [discriminate|]. intros [= <- _]. now exists s.
  - intros [= <- _]. now exists s.
Qed.

Lemma rstrip_idempotent (p : ascii -> bool) (s : string) :
  rstrip p (rstrip p s) = rstrip p s.
Proof.
  induction s as [|a s IH]; [reflexivity|].
  cbn [rstrip]. destruct (rstrip p s) as [|b r] eqn:Er.
  - destruct (p a) eqn:Ea; [reflexivity|]. cbn [rstrip]. now rewrite Ea.
  - change (rstrip p (String a (String b r)))
      with (match rstrip p (String b r) with
            | EmptyString => if p a then EmptyString else String a EmptyString
            | String b' r' => String a (String b' r')
            end).
    now rewrite IH.
Qed.

Lemma strip_idempotent (s : string) : strip (strip s) = strip s.
Proof.
  unfold strip. set (t := rstrip isspace (Str.lstrip isspace s)).
  assert (Hl : Str.lstrip isspace t = t).
  { destruct t as [|c r] eqn:Et; [reflexivity|].
    destruct (rstrip_head _ _ _ _ Et) as [r' Hr'].
    apply lstrip_head in Hr'. simpl. now rewrite Hr'. }
  rewrite Hl. apply rstrip_idempotent.
Qed.

Lemma contains_lstrip (c : ascii) (p : ascii -> bool) (s : string) :
  Str.contains_char c s = false -> Str.contains_char c (Str.lstrip p s) = false.
Proof.
  induction s as [|a s IH]; simpl; [trivial|].
  intros H. apply orb_false_iff in H. destruct H as [Ha Hs].
  destruct (p a); [now apply IH|]. simpl. now rewrite Ha, Hs.
Qed.

Lemma contains_rstrip (c : ascii) (p : ascii -> bool) (s : string) :
  Str.contains_char c s = false -> Str.contains_char c (rstrip p s) = false.
Proof.
  induction s as [|a s IH]; simpl; [trivial|].
  intros H. apply orb_false_iff in H. destruct H as [Ha Hs].
  specialize (IH Hs). destruct (rstrip p s) as [|b r].
  - destruct (p a); [reflexivity|]. simpl. now rewrite Ha.
  - cbn [Str.contains_char] in *. now rewrite Ha, IH.
Qed.

Lemma split_pieces (c : ascii) (s piece : string) :
  In piece (split c s) -> Str.contains_char c piece = false.
Proof.
  revert piece. induction s as [|a s IH]; intros piece; simpl.
  - intros [<- | []]. reflexivity.
  - destruct (Ascii.eqb a c) eqn:Ea.
    + intros [<- | H]; [reflexivity | now apply IH].
    + destruct (split c s) as [|q qs].
      * intros [<- | []]. simpl. now rewrite Ea.
      * intros [<- | H].
        -- simpl. rewrite Ea. apply IH. now left.
        -- apply IH. now right.
Qed.

Lemma split_whole (c : ascii) (d : string) :
  Str.contains_char c d = false -> split c d = [d].
Proof.
  induction d as [|a d IH]; simpl; [reflexivity|].
  intros H. apply orb_false_iff in H. destruct H as [Ha Hd].
  now rewrite Ha, (IH Hd).
Qed.

Lemma split_first (c : ascii) (d rest : string) :
  Str.contains_char c d = false ->
  split c (d ++ String c rest) = d :: split c rest.
Proof.
  induction d as [|a d IH]; simpl.
  - intros _. now rewrite Ascii.eqb_refl.
  - intros H. apply orb_false_iff in H. destruct H as [Ha Hd].
    now rewrite Ha, (IH Hd).
Qed.

Lemma split_concat (c : ascii) (ds : list string) :
  ds <> [] ->
  (forall d, In d ds -> Str.contains_char c d = false) ->
  split c (String.concat (String c "") ds) = ds.
Proof.
  induction ds as [|d ds IH]; [congruence|]. intros _ Hc.
  destruct ds as [|d' ds].
  - simpl. apply split_whole, Hc. now left.
  - change (String.concat (String c "") (d :: d' :: ds))
      with (d ++ String c (String.concat (String c "") (d' :: ds))).
    rewrite split_first by (apply Hc; now left).
    f_equal. apply IH; [discriminate|]. intros x Hx. apply Hc. now right.
Qed.

Lemma parse_domains_in (setting d : string) :
  In d (parse_domains setting) ->
  exists piece, In piece (split "," setting) /\ d = strip piece /\ d <> "".
Proof.
  unfold parse_domains. rewrite in_map_iff. intros [piece [<- Hin]].
  apply filter_In in Hin. destruct Hin as [Hin Hne].
  exists piece. repeat split; [exact Hin|].
  apply negb_true_iff in Hne. now apply String.eqb_neq.
Qed.

Lemma load_module_settings {V : urllib.Validation}
      (url token : string) (domains : list string) (prefix : string) (g : Globals) :
  load_module url token domains prefix = Return g ->
  @GATEWAY_TOKEN g = token
  /\ @INTERCEPT_DOMAINS g = domains
  /\ @INTERCEPT_PATH_PREFIX g = prefix.
Proof.
  unfold load_module.
  destruct (urllib.urlparse url) as [p|e]; [|discriminate]. cbn [rbind].
  destruct (urllib.port p) as [port|e]; [|discriminate]. cbn [rbind].
  intros [= <-]. repeat split.
Qed.

(** X12.  Every rule domain read from the environment is clean: not empty,
    without white space at either end, and without a comma.  This holds of
    the list [parse_domains] builds from any setting, hence of the domain
    list of every module that loads. *)
Theorem parsed_domains_are_clean :
  (forall setting d : string, In d (parse_domains setting) -> clean_domain d)
  /\ (forall (V : urllib.Validation) (env : environ) (g : Globals) (d : string),
         import_module env = Return g -> In d (@INTERCEPT_DOMAINS g) -> clean_domain d).
Proof.
  assert (H : forall setting d : string, In d (parse_domains setting) -> clean_domain d).
  { intros setting d Hd. apply parse_domains_in in Hd.
    destruct Hd as [piece [Hin [-> Hne]]]. split; [exact Hne|]. split.
    - apply strip_idempotent.
    - unfold strip. apply contains_rstrip, contains_lstrip.
      exact (split_pieces _ _ _ Hin). }
  split; [exact H|].
  intros V env g d Hg Hd. unfold import_module in Hg.
  apply load_module_settings in Hg. destruct Hg as [_ [Hds _]].
  rewrite Hds in Hd. exact (H _ _ Hd).
Qed.

Lemma parsed_domains_are_clean_witness :
  clean_domain "b.example".
Proof.
  apply (proj1 parsed_domains_are_clean " a.example ,, b.example ,"). right. left. reflexivity.
Defined.

(** X13.  Clean domains joined by commas are read back as they were, in the
    same order, repetitions kept. *)
Theorem parse_domains_reads_back (ds : list string) :
  (forall d, In d ds -> clean_domain d) ->
  parse_domains (String.concat "," ds) = ds.
Proof.
  intros Hc. destruct ds as [|d0 ds0] eqn:Eds; [reflexivity|]. rewrite <- Eds in *.
  unfold parse_domains. rewrite split_concat.
  - assert (Hf : filter (fun d => negb (String.eqb (strip d) "")) ds = ds).
    { clear Eds. induction ds as [|d ds IH]; [reflexivity|]. simpl.
      destruct (Hc d (or_introl eq_refl)) as [Hne [Hs _]]. rewrite Hs.
      apply String.eqb_neq in Hne. rewrite Hne. simpl. f_equal.
      apply IH. intros x Hx. apply Hc. now right. }
    rewrite Hf. clear Eds Hf. induction ds as [|d ds IH]; [reflexivity|]. simpl.
    destruct (Hc d (or_introl eq_refl)) as [_ [Hs _]]. rewrite Hs. f_equal.
    apply IH. intros x Hx. apply Hc. now right.
  - rewrite Eds. discriminate.
  - intros d Hd. now destruct (Hc d Hd) as [_ [_ H]].
Qed.

Lemma parse_domains_reads_back_witness :
  parse_domains (String.concat "," ["api.codeium.com"; "my host"; "api.codeium.com"])
  = ["api.codeium.com"; "my host"; "api.codeium.com"].
Proof.
  apply parse_domains_reads_back.
  intros d [<- | [<- | [<- | []]]]; repeat split; discriminate.
Defined.

Lemma strip_empty_iff (s : string) :
  strip s = "" <-> Str.all_chars isspace s = true.
Proof.
  unfold strip. rewrite rstrip_empty_iff. split.
  - intros H. apply lstrip_empty_iff.
    destruct (Str.lstrip isspace s) as [|a r] eqn:El; [reflexivity|].
    apply lstrip_head in El. simpl in H. rewrite El in H. discriminate.
  - intros H. apply lstrip_empty_iff in H. now rewrite H.
Qed.

Lemma split_all_blank (s : string) :
  blank_setting s = true <->
  forall piece, In piece (split "," s) -> Str.all_chars isspace piece = true.
Proof.
  unfold blank_setting. induction s as [|a s IH]; cbn [Str.all_chars split].
  - split; [|reflexivity]. intros _ piece [<- | []]. reflexivity.
  - rewrite andb_true_iff, IH. clear IH.
    destruct (Ascii.eqb a ",") eqn:Ea; cbn [orb].
    + split.
      * intros [_ H] piece [<- | Hin]; [reflexivity | now apply H].
      * intros H. split; [reflexivity|]. intros piece Hin. apply H. now right.
    + destruct (split "," s) as [|q qs].
      * split.
        -- intros [Ha _] piece [<- | []]. simpl. now rewrite Ha.
        -- intros H. specialize (H _ (or_introl eq_refl)). simpl in H.
           apply andb_true_iff in H. destruct H as [Ha _]. split; [exact Ha|].
           intros piece [].
      * split.
        -- intros [Ha H] piece [<- | Hin].
           ++ simpl. rewrite Ha. apply H. now left.
           ++ apply H. now right.
        -- intros H. assert (Hq := H _ (or_introl eq_refl)). simpl in Hq.
           apply andb_true_iff in Hq. destruct Hq as [Ha Hq]. split; [exact Ha|].
           intros piece [<- | Hin]; [exact Hq|]. apply H. now right.
Qed.

Lemma parse_domains_empty_iff (s : string) :
  parse_domains s = [] <-> blank_setting s = true.
Proof.
  rewrite split_all_blank. unfold parse_domains. split.
  - intros H piece Hin. apply strip_empty_iff.
    destruct (String.eqb_spec (strip piece) "") as [E | E]; [exact E|].
    assert (Hf : In piece (filter (fun d => negb (String.eqb (strip d) "")) (split "," s))).
    { apply filter_In. split; [exact Hin|]. apply negb_true_iff. now apply String.eqb_neq. }
    apply (in_map strip) in Hf. rewrite H in Hf. contradiction.
  - intros H.
    replace (filter (fun d => negb (String.eqb (strip d) "")) (split "," s))
      with (@nil string); [reflexivity|].
    symmetry. induction (split "," s) as [|q qs IH]; [reflexivity|]. simpl.
    assert (Hq : strip q = "") by (apply strip_empty_iff, H; now left).
    rewrite Hq. simpl. apply IH. intros piece Hin. apply H. now right.
Qed.

(** X14.  The domain list read from a setting is empty exactly when the
    setting holds nothing but commas and white space; a module loaded with
    such an INTERCEPT_DOMAINS in its environment intercepts no request. *)
Theorem blank_setting_disables_interception :
  (forall s : string, parse_domains s = [] <-> blank_setting s = true)
  /\ (forall (V : urllib.Validation) (env : environ) (s : string) (g : Globals),
         env "INTERCEPT_DOMAINS" = Some s ->
         blank_setting s = true ->
         import_module env = Return g ->
         forall h p : string, @_should_intercept g h p = false).
Proof.
  split; [exact parse_domains_empty_iff|].
  intros V env s g Hs Hb Hg h p. unfold import_module in Hg.
  apply load_module_settings in Hg. destruct Hg as [_ [Hds _]].
  unfold environ_get in Hds. rewrite Hs in Hds.
  apply parse_domains_empty_iff in Hb. rewrite Hb in Hds.
  unfold _should_intercept. now rewrite Hds.
Qed.

Lemma blank_setting_disables_interception_witness :
  exists g : Globals,
    @import_module lenient (environ_of [("INTERCEPT_DOMAINS", " , ,")]) = Return g
    /\ @_should_intercept g "api.codeium.com" "/v1/chat/completions" = false.
Proof.
  eexists. split; [reflexivity|].
  apply (proj2 blank_setting_disables_interception lenient
           (environ_of [("INTERCEPT_DOMAINS", " , ,")]) " , ,"); reflexivity.
Defined.

(** X15.  Only GATEWAY_URL can make the module fail to load: with that
    variable unset the module loads, whatever the other variables hold, and
    the gateway is http, 127.0.0.1, port 18790. *)
Theorem import_succeeds_without_gateway_url {V : urllib.Validation} (env : environ) :
  env "GATEWAY_URL" = None ->
  exists g : Globals,
    import_module env = Return g
    /\ @GATEWAY_SCHEME g = "http"
    /\ @GATEWAY_HOST g = "127.0.0.1"
    /\ @GATEWAY_PORT g = 18790
    /\ @GATEWAY_TOKEN g = environ_get env "GATEWAY_TOKEN" "sk-deploy-001"
    /\ @INTERCEPT_PATH_PREFIX g = environ_get env "INTERCEPT_PATH_PREFIX" "".
Proof.
  intros Hu. unfold import_module, environ_get at 1. rewrite Hu.
  eexists. split; [reflexivity|]. repeat split.
Qed.

Lemma import_succeeds_without_gateway_url_witness :
  exists g : Globals,
    @import_module lenient (environ_of [("GATEWAY_TOKEN", "sk-live"); ("INTERCEPT_PATH_PREFIX", "/v1")])
    = Return g
    /\ @GATEWAY_PORT g = 18790
    /\ @GATEWAY_TOKEN g = "sk-live".
Proof.
  destruct (@import_succeeds_without_gateway_url lenient
              (environ_of [("GATEWAY_TOKEN", "sk-live"); ("INTERCEPT_PATH_PREFIX", "/v1")])
              eq_refl) as [g [Hg [_ [_ [Hp [Ht _]]]]]].
  exists g. split; [exact Hg|]. split; [exact Hp | exact Ht].
Defined.

(** ** The gateway target, continued *)

Lemma lower_char_not_upper (c : ascii) : Str.is_upper (Str.lower_char c) = false.
Proof. destruct c as [[] [] [] [] [] [] [] []]; reflexivity. Qed.

Lemma lower_not_upper (s : string) :
  Str.all_chars (fun c => negb (Str.is_upper c)) (Str.lower s) = true.
Proof.
  induction s as [|a s IH]; simpl; [reflexivity|].
  now rewrite lower_char_not_upper, IH.
Qed.

Lemma urlparse_scheme_lower {V : urllib.Validation} (url : string) (p : urllib.ParseResult) :
  urllib.urlparse url = Return p ->
  Str.all_chars (fun c => negb (Str.is_upper c)) (urllib.scheme p) = true.
Proof.
  unfold urllib.urlparse.
  destruct (Str.partition ":" _) as [[head found] tail].
  match goal with
  | |- context [if ?c then (Str.lower head, tail) else _] => destruct c
  end;
  match goal with
  | |- rbind ?m _ = _ -> _ => destruct m as [netloc|e]; [|discriminate]
  end;
  cbn [rbind]; destruct (urllib._checknetloc netloc); try discriminate;
  cbn [rbind]; intros [= <-]; cbn [urllib.scheme];
  [apply lower_not_upper | reflexivity].
Qed.

Lemma port_in_range (p : urllib.ParseResult) (n : Z) :
  urllib.port p = Return (Some n) -> 0 <= n <= 65535.
Proof.
  unfold urllib.port. destruct (snd (urllib._hostinfo p)) as [s|]; [|discriminate].
  destruct (Str.all_chars Str.is_digit s); [|discriminate].
  destruct ((0 <=? Str.int_digits 0 s) && (Str.int_digits 0 s <=? 65535)) eqn:E;
    [|discriminate].
  intros [= <-]. apply andb_true_iff in E. lia.
Qed.

Lemma load_module_inv {V : urllib.Validation}
      (url token : string) (domains : list string) (prefix : string) (g : Globals) :
  load_module url token domains prefix = Return g ->
  exists p port,
    urllib.urlparse url = Return p
    /\ urllib.port p = Return port
    /\ @GATEWAY_HOST g = or_str (urllib.hostname p) "127.0.0.1"
    /\ @GATEWAY_PORT g
       = or_int port (if String.eqb (urllib.scheme p) "https" then 443 else 80)
    /\ @GATEWAY_SCHEME g = or_str (Some (urllib.scheme p)) "http".
Proof.
  unfold load_module.
  destruct (urllib.urlparse url) as [p|e] eqn:Hp; [|discriminate]. cbn [rbind].
  destruct (urllib.port p) as [port|e] eqn:Hport; [|discriminate]. cbn [rbind].
  intros [= <-]. exists p, port. repeat split. exact Hport.
Qed.

(** X16.  A module that loads always has a complete gateway target: the
    scheme is not empty and has no upper-case letter, the host is not
    empty, and the port lies between 1 and 65535. *)
Theorem loaded_gateway_is_complete {V : urllib.Validation}
        (url token : string) (domains : list string) (prefix : string) (g : Globals) :
  load_module url token domains prefix = Return g ->
  @GATEWAY_SCHEME g <> ""
  /\ Str.all_chars (fun c => negb (Str.is_upper c)) (@GATEWAY_SCHEME g) = true
  /\ @GATEWAY_HOST g <> ""
  /\ 1 <= @GATEWAY_PORT g <= 65535.
Proof.
  intros Hg. apply load_module_inv in Hg.
  destruct Hg as [p [port [Hp [Hport [-> [-> ->]]]]]].
  assert (Hl := urlparse_scheme_lower url p Hp).
  split; [|split; [|split]].
  - cbn [or_str]. destruct (String.eqb_spec (urllib.scheme p) ""); [discriminate | assumption].
  - cbn [or_str]. destruct (String.eqb_spec (urllib.scheme p) ""); [reflexivity | exact Hl].
  - destruct (urllib.hostname p) as [h|] eqn:Eh; cbn [or_str]; [|discriminate].
    destruct (String.eqb_spec h ""); [discriminate | assumption].
  - destruct port as [n|]; cbn [or_int].
    + apply port_in_range in Hport.
      destruct (Z.eqb_spec n 0); [|lia].
      destruct (String.eqb (urllib.scheme p) "https"); lia.
    + destruct (String.eqb (urllib.scheme p) "https"); lia.
Qed.

Lemma loaded_gateway_is_complete_witness :
  @GATEWAY_SCHEME default_globals <> ""
  /\ Str.all_chars (fun c => negb (Str.is_upper c)) (@GATEWAY_SCHEME default_globals) = true
  /\ @GATEWAY_HOST default_globals <> ""
  /\ 1 <= @GATEWAY_PORT default_globals <= 65535.
Proof.
  apply (@loaded_gateway_is_complete lenient "http://127.0.0.1:18790" "sk-deploy-001"
           ["api.codeium.com"; "server.codeium.com"; "web-backend.codeium.com"] "").
  reflexivity.
Defined.

(** X17.  An explicit port is kept unless it is 0: when the URL parses and
    its port reads as the number [n], the module loads with gateway port [n]
    if [n] is not 0, and with the scheme's default (443 for https, 80 for
    any other scheme) if it is. *)
Theorem explicit_port_zero_is_replaced {V : urllib.Validation}
        (url token : string) (domains : list string) (prefix : string)
        (p : urllib.ParseResult) (n : Z) :
  urllib.urlparse url = Return p ->
  urllib.port p = Return (Some n) ->
  exists g : Globals,
    load_module url token domains prefix = Return g
    /\ (n <> 0 -> @GATEWAY_PORT g = n)
    /\ (n = 0 ->
        @GATEWAY_PORT g = if String.eqb (urllib.scheme p) "https" then 443 else 80).
Proof.
  intros Hp Hport. unfold load_module. rewrite Hp. cbn [rbind]. rewrite Hport. cbn [rbind].
  eexists. split; [reflexivity|]. cbn [GATEWAY_PORT or_int]. split.
  - intros Hn. now destruct (Z.eqb_spec n 0).
  - intros ->. reflexivity.
Qed.

Lemma explicit_port_zero_is_replaced_witness :
  exists g : Globals,
    @load_module lenient "https://gw.example.com:0" "sk-deploy-001" [] "" = Return g
    /\ @GATEWAY_PORT g = 443.
Proof.
  destruct (@explicit_port_zero_is_replaced lenient "https://gw.example.com:0" "sk-deploy-001"
              [] "" {| urllib.scheme := "https"; urllib.netloc := "gw.example.com:0" |} 0
              eq_refl eq_refl) as [g [Hg [_ Hz]]].
  exists g. split; [exact Hg | exact (Hz eq_refl)].
Defined.

(** X18.  A port that is not a decimal number, or a number above 65535, is
    not given a default: when the URL parses and the text after the host's
    colon has a character that is not a digit, or reads as a number above
    65535, loading the module raises a value error. *)
Theorem malformed_port_fails_the_import {V : urllib.Validation}
        (url token : string) (domains : list string) (prefix : string)
        (p : urllib.ParseResult) (s : string) :
  urllib.urlparse url = Return p ->
  snd (urllib._hostinfo p) = Some s ->
  Str.all_chars Str.is_digit s = false \/ 65535 < Str.int_digits 0 s ->
  exists msg, load_module url token domains prefix = Raise (ValueError msg).
Proof.
  intros Hp Hs Hbad. unfold load_module. rewrite Hp. cbn [rbind].
  unfold urllib.port. rewrite Hs.
  destruct (Str.all_chars Str.is_digit s) eqn:Ed.
  - destruct Hbad as [Hbad | Hbad]; [discriminate|].
    replace (Str.int_digits 0 s <=? 65535) with false by (symmetry; apply Z.leb_gt; lia).
    rewrite andb_false_r. cbn [rbind]. eauto.
  - cbn [rbind]. eauto.
Qed.

Lemma malformed_port_fails_the_import_witness :
  exists msg,
    @load_module lenient "http://gw.example.com:80a" "sk-deploy-001" [] "" = Raise (ValueError msg).
Proof.
  apply (@malformed_port_fails_the_import lenient "http://gw.example.com:80a" "sk-deploy-001"
           [] "" {| urllib.scheme := "http"; urllib.netloc := "gw.example.com:80a" |} "80a");
    [reflexivity | reflexivity | left; reflexivity].
Defined.
